(** * armor_solver_node.cpp: the EKF closures and the detection callback

    A shallow embedding of [ArmorSolverNode] (namespace fyt::auto_aim):

    - the six closures the constructor hands to the extended Kalman filter
      ([f], [j_f], [h], [j_h], [u_q], [u_r]), written once over the
      arithmetic of the scalar type, and read both over IEEE binary64
      (what the program computes with) and over the real numbers (what the
      word "Jacobian" is about);
    - [armorsCallback], as a function from the node and one incoming frame
      to the new node and the trace of what the callback called and
      published. *)

From Stdlib Require Import ZArith List Bool String Lia.
From Stdlib Require Import Reals Lra.
From Stdlib Require Import Floats.
Import ListNotations.

Set Implicit Arguments.
Set Warnings "-inexact-float".

(** ** Scalars *)

(** The operations of [double] that the closures use.  [lit] is an integer
    literal converted to [double]; [dpow x n] is [pow(x, n)] for an integer
    literal [n]. *)
Class DoubleOps (D : Type) : Type := {
  lit  : Z -> D;
  dadd : D -> D -> D;
  dsub : D -> D -> D;
  dmul : D -> D -> D;
  ddiv : D -> D -> D;
  dneg : D -> D;
  dabs : D -> D;
  dcos : D -> D;
  dsin : D -> D;
  dpow : D -> Z -> D
}.

Declare Scope double_scope.
Delimit Scope double_scope with D.
Notation "x + y" := (dadd x y) : double_scope.
Notation "x - y" := (dsub x y) : double_scope.
Notation "x * y" := (dmul x y) : double_scope.
Notation "x / y" := (ddiv x y) : double_scope.
Notation "- x" := (dneg x) : double_scope.

(** The real numbers: the arithmetic the formulas idealise. *)
#[export] Instance RealOps : DoubleOps R := {
  lit  := IZR;
  dadd := Rplus;
  dsub := Rminus;
  dmul := Rmult;
  ddiv := Rdiv;
  dneg := Ropp;
  dabs := Rabs;
  dcos := cos;
  dsin := sin;
  dpow := fun x n => pow x (Z.to_nat n)
}.

(** ** Eigen vectors and matrices *)

Section Eigen.
Context {D : Type} {ops : DoubleOps D}.

(** [Eigen::VectorXd]: the coefficients in order. *)
Definition VectorXd := list D.

(** [Eigen::MatrixXd] filled by the comma initialiser: the rows, top
    to bottom, each left to right. *)
Definition MatrixXd := list (list D).

(** [x(i)] *)
Definition coeff (x : VectorXd) (i : nat) : D := nth i x (lit 0).

(** [m(i, j)] *)
Definition mcoeff (m : MatrixXd) (i j : nat) : D := nth j (nth i m []) (lit 0).

(** [x(i) = v] *)
Fixpoint set_coeff (x : VectorXd) (i : nat) (v : D) : VectorXd :=
  match x, i with
  | [], _ => []
  | _ :: t, O => v :: t
  | a :: t, S k => a :: set_coeff t k v
  end.

(** [Eigen::DiagonalMatrix<double, n>] stores its diagonal only. *)
Record DiagonalMatrix := { diagonal : list D }.

(** The coefficient at row [i], column [j] of a diagonal matrix. *)
Definition dcoeff (m : DiagonalMatrix) (i j : nat) : D :=
  if Nat.eqb i j then nth i (diagonal m) (lit 0) else lit 0.

(** The dense [n]-by-[n] matrix a diagonal matrix stands for. *)
Definition toDenseMatrix (n : nat) (m : DiagonalMatrix) : MatrixXd :=
  map (fun i => map (fun j => dcoeff m i j) (seq 0 n)) (seq 0 n).

(** [p0.setIdentity()] on a [DiagonalMatrix<double, n>] *)
Definition setIdentity (n : nat) : DiagonalMatrix :=
  {| diagonal := repeat (lit 1) n |}.
End Eigen.

Arguments VectorXd D : clear implicits.
Arguments MatrixXd D : clear implicits.
Arguments DiagonalMatrix D : clear implicits.

(** ** The closures of the constructor *)

(** The members of the node that the closures capture through [this]:
    [dt_], written by the callback on every update tick, and the
    [ekf.*] parameters declared in the constructor. *)
Record Captured (D : Type) : Type := {
  dt_     : D;
  s2qx_   : D;
  s2qy_   : D;
  s2qz_   : D;
  s2qyaw_ : D;
  s2qr_   : D;
  r_x_    : D;
  r_y_    : D;
  r_z_    : D;
  r_yaw_  : D
}.

Section Closures.
Context {D : Type} {ops : DoubleOps D}.
Local Open Scope double_scope.

Variable this : Captured D.

(** f - Process function *)
Definition f (x : VectorXd D) : VectorXd D :=
  let x_new := x in
  let x_new := set_coeff x_new 0 (coeff x_new 0 + coeff x 1 * dt_ this) in
  let x_new := set_coeff x_new 2 (coeff x_new 2 + coeff x 3 * dt_ this) in
  let x_new := set_coeff x_new 4 (coeff x_new 4 + coeff x 5 * dt_ this) in
  let x_new := set_coeff x_new 6 (coeff x_new 6 + coeff x 7 * dt_ this) in
  x_new.

(** J_f - Jacobian of process function *)
Definition j_f (_ : VectorXd D) : MatrixXd D :=
  let dt := dt_ this in
  let o := lit 0 in
  let i := lit 1 in
  [ [i; dt; o; o;  o; o;  o; o;  o];
    [o; i;  o; o;  o; o;  o; o;  o];
    [o; o;  i; dt; o; o;  o; o;  o];
    [o; o;  o; i;  o; o;  o; o;  o];
    [o; o;  o; o;  i; dt; o; o;  o];
    [o; o;  o; o;  o; i;  o; o;  o];
    [o; o;  o; o;  o; o;  i; dt; o];
    [o; o;  o; o;  o; o;  o; i;  o];
    [o; o;  o; o;  o; o;  o; o;  i] ].

(** h - Observation function *)
Definition h (x : VectorXd D) : VectorXd D :=
  let xc := coeff x 0 in
  let yc := coeff x 2 in
  let yaw := coeff x 6 in
  let r := coeff x 8 in
  [ xc - r * dcos yaw;    (* xa *)
    yc - r * dsin yaw;    (* ya *)
    coeff x 4;            (* za *)
    coeff x 6 ].          (* yaw *)

(** J_h - Jacobian of observation function *)
Definition j_h (x : VectorXd D) : MatrixXd D :=
  let yaw := coeff x 6 in
  let r := coeff x 8 in
  let o := lit 0 in
  let i := lit 1 in
  (*  xc v_xc yc v_yc za v_za yaw              v_yaw r *)
  [ [i;  o;   o;  o;  o;  o;  r * dsin yaw;     o;  - dcos yaw];
    [o;  o;   i;  o;  o;  o;  (- r) * dcos yaw; o;  - dsin yaw];
    [o;  o;   o;  o;  i;  o;  o;                o;  o];
    [o;  o;   o;  o;  o;  o;  i;                o;  o] ].

(** update_Q - process noise covariance matrix *)
Definition u_q : MatrixXd D :=
  let t := dt_ this in
  let x := s2qx_ this in
  let y := s2qy_ this in
  let z := s2qz_ this in
  let yaw := s2qyaw_ this in
  let r := s2qr_ this in
  let q_x_x := dpow t 4 / lit 4 * x in
  let q_x_vx := dpow t 3 / lit 2 * x in
  let q_vx_vx := dpow t 2 * x in
  let q_y_y := dpow t 4 / lit 4 * y in
  let q_y_vy := dpow t 3 / lit 2 * y in
  let q_vy_vy := dpow t 2 * y in
  let q_z_z := dpow t 4 / lit 4 * x in
  let q_z_vz := dpow t 3 / lit 2 * x in
  let q_vz_vz := dpow t 2 * z in
  let q_yaw_yaw := dpow t 4 / lit 4 * yaw in
  let q_yaw_vyaw := dpow t 3 / lit 2 * x in
  let q_vyaw_vyaw := dpow t 2 * yaw in
  let q_r := dpow t 4 / lit 4 * r in
  let o := lit 0 in
  (*  xc      v_xc     yc     v_yc     za      v_za     yaw         v_yaw        r *)
  [ [q_x_x;  q_x_vx;  o;     o;       o;      o;       o;          o;           o];
    [q_x_vx; q_vx_vx; o;     o;       o;      o;       o;          o;           o];
    [o;      o;       q_y_y; q_y_vy;  o;      o;       o;          o;           o];
    [o;      o;       q_y_vy; q_vy_vy; o;     o;       o;          o;           o];
    [o;      o;       o;     o;       q_z_z;  q_z_vz;  o;          o;           o];
    [o;      o;       o;     o;       q_z_vz; q_vz_vz; o;          o;           o];
    [o;      o;       o;     o;       o;      o;       q_yaw_yaw;  q_yaw_vyaw;  o];
    [o;      o;       o;     o;       o;      o;       q_yaw_vyaw; q_vyaw_vyaw; o];
    [o;      o;       o;     o;       o;      o;       o;          o;           q_r] ].

(** update_R - measurement noise covariance matrix *)
Definition u_r (z : VectorXd D) : DiagonalMatrix D :=
  {| diagonal := [ dabs (r_x_ this * coeff z 0);
                   dabs (r_y_ this * coeff z 1);
                   dabs (r_z_ this * coeff z 2);
                   r_yaw_ this ] |}.

(** P - error estimate covariance matrix *)
Definition p0 : DiagonalMatrix D := setIdentity 9.
End Closures.

(** The captured members when every [ekf.*] parameter has its declared
    default (20, 20, 20, 100, 800 and 0.05, 0.05, 0.05, 0.02) and [dt_]
    is [dt]. *)
Definition default_captured {D : Type} {ops : DoubleOps D} (dt : D) : Captured D := {|
  dt_     := dt;
  s2qx_   := lit 20;
  s2qy_   := lit 20;
  s2qz_   := lit 20;
  s2qyaw_ := lit 100;
  s2qr_   := lit 800;
  r_x_    := ddiv (lit 5) (lit 100);
  r_y_    := ddiv (lit 5) (lit 100);
  r_z_    := ddiv (lit 5) (lit 100);
  r_yaw_  := ddiv (lit 2) (lit 100)
|}.

(** ** Conversions between [double] and the integer types *)

Definition INT_MIN : Z := - 2 ^ 31.
Definition INT_MAX : Z := 2 ^ 31 - 1.

(** [static_cast<double>(n)] for a 64-bit integer [n]: the nearest double. *)
Definition int64_to_double (n : Z) : float :=
  if (n <? 0)%Z then PrimFloat.opp (of_uint63 (Uint63.of_Z (- n)))
  else of_uint63 (Uint63.of_Z n).

(** The integer part of a finite double (truncation toward zero); none for
    an infinity or a NaN. *)
Definition truncate (d : float) : option Z :=
  match Prim2SF d with
  | S754_zero _ => Some 0%Z
  | S754_finite s m e =>
      let a := if (0 <=? e)%Z then (Z.pos m * 2 ^ e)%Z
               else (Z.pos m / 2 ^ (- e))%Z in
      Some (if s then (- a)%Z else a)
  | S754_infinity _ => None
  | S754_nan => None
  end.

(** [static_cast<int>(d)]: the truncated value when [int] can hold it; the
    conversion has no defined result otherwise. *)
Definition static_cast_int (d : float) : option Z :=
  match truncate d with
  | Some n => if ((INT_MIN <=? n) && (n <=? INT_MAX))%Z then Some n else None
  | None => None
  end.

(** [std::abs(int)]: not defined at [INT_MIN], whose opposite is no [int]. *)
Definition std_abs_int (n : Z) : option Z :=
  if (n =? INT_MIN)%Z then None else Some (Z.abs n).

(** IEEE binary64, what [double] is at run time.  The three libm functions
    have no counterpart among the primitive operations and are taken as
    given. *)
Definition BinaryOps (libm_cos libm_sin : float -> float)
    (libm_pow : float -> Z -> float) : DoubleOps float := {|
  lit  := int64_to_double;
  dadd := PrimFloat.add;
  dsub := PrimFloat.sub;
  dmul := PrimFloat.mul;
  ddiv := PrimFloat.div;
  dneg := PrimFloat.opp;
  dabs := PrimFloat.abs;
  dcos := libm_cos;
  dsin := libm_sin;
  dpow := libm_pow
|}.

(** ** Time *)

(** [rclcpp::Time] and the difference of two of them, in nanoseconds.  The
    clock type that rclcpp attaches to a time, and the range check of its
    subtraction, are left out. *)
Definition Time := Z.

(** [rclcpp::Duration::seconds()] *)
Definition seconds (nanoseconds : Z) : float :=
  (int64_to_double nanoseconds / 1e9)%float.

(** ** Messages *)

(** Modelled from the spec: the message types of rm_interfaces and
    geometry_msgs are declared outside this file.  The records below carry
    the fields the callback reads or writes, under the names it uses; an
    observation's pose is, as in the data model of the specification, a
    position (x, y, z) and an orientation yaw.  A default-constructed
    message has every field zero, false or empty. *)

Module Header.
Record t := { stamp : Time; frame_id : string }.
Definition default : t := {| stamp := 0%Z; frame_id := EmptyString |}.
End Header.

Module Point.
Record t := { x : float; y : float; z : float }.
Definition default : t := {| x := 0%float; y := 0%float; z := 0%float |}.
End Point.

Module Pose.
Record t := { position : Point.t; yaw : float }.
End Pose.

Module Armor.
Record t := { number : string; type : string; pose : Pose.t }.
Definition set_pose (armor : t) (p : Pose.t) : t :=
  {| number := number armor; type := type armor; pose := p |}.
End Armor.

Module Armors.
Record t := { header : Header.t; armors : list Armor.t }.
Definition set_armors (m : t) (l : list Armor.t) : t :=
  {| header := header m; armors := l |}.
End Armors.

Module Measurement.
Record t := { x : float; y : float; z : float; yaw : float }.
Definition default : t :=
  {| x := 0%float; y := 0%float; z := 0%float; yaw := 0%float |}.
End Measurement.

Module Target.
Record t := {
  header : Header.t;
  tracking : bool;
  id : string;
  armors_num : Z;
  position : Point.t;
  velocity : Point.t;
  yaw : float;
  v_yaw : float;
  radius_1 : float;
  radius_2 : float;
  dz : float
}.
Definition default : t := {|
  header := Header.default;
  tracking := false;
  id := EmptyString;
  armors_num := 0%Z;
  position := Point.default;
  velocity := Point.default;
  yaw := 0%float;
  v_yaw := 0%float;
  radius_1 := 0%float;
  radius_2 := 0%float;
  dz := 0%float
|}.
End Target.

Module GimbalCmd.
Record t := {
  pitch : float;
  yaw : float;
  pitch_diff : float;
  yaw_diff : float;
  distance : float;
  fire_advice : bool
}.
Definition default : t := {|
  pitch := 0%float;
  yaw := 0%float;
  pitch_diff := 0%float;
  yaw_diff := 0%float;
  distance := 0%float;
  fire_advice := false
|}.
End GimbalCmd.

(** ** The tracker, as the callback sees it *)

(** [Tracker::State] *)
Inductive State : Type := LOST | DETECTING | TRACKING | TEMP_LOST.

Definition State_eqb (a b : State) : bool :=
  match a, b with
  | LOST, LOST | DETECTING, DETECTING
  | TRACKING, TRACKING | TEMP_LOST, TEMP_LOST => true
  | _, _ => false
  end.

(** Modelled from the spec: the enumeration behind [tracked_armors_num] is
    declared with the tracker; the specification gives its values as 2, 3
    or 4 plates. *)
Inductive ArmorsNum : Type := NORMAL_4 | OUTPOST_3 | BALANCE_2.

(** [static_cast<int>(tracked_armors_num)] *)
Definition ArmorsNum_to_int (n : ArmorsNum) : Z :=
  match n with
  | NORMAL_4 => 4
  | OUTPOST_3 => 3
  | BALANCE_2 => 2
  end%Z.

(** ** The node and its collaborators *)

Section Node.
(** The members of [Tracker] this file never touches: the filter, the
    counters, the association thresholds. *)
Variable TrackerInternals : Type.

(** The [Tracker] object, with the public members the callback reads or
    writes. *)
Record Tracker : Type := {
  tracker_state      : State;
  tracked_id         : string;
  tracked_armors_num : ArmorsNum;
  target_state       : VectorXd float;
  measurement        : VectorXd float;
  another_r          : float;
  dz                 : float;
  tracking_thres     : Z;
  lost_thres         : Z;
  internals          : TrackerInternals
}.

Definition set_lost_thres (t : Tracker) (n : Z) : Tracker :=
  {| tracker_state := tracker_state t;
     tracked_id := tracked_id t;
     tracked_armors_num := tracked_armors_num t;
     target_state := target_state t;
     measurement := measurement t;
     another_r := another_r t;
     dz := dz t;
     tracking_thres := tracking_thres t;
     lost_thres := n;
     internals := internals t |}.

(** [Tracker::init] and [Tracker::update] are defined with the tracker.
    The filter they drive reads the node through the closures above, so
    both receive the captured members as they stand at the call. *)
Variable Tracker_init : Captured float -> Tracker -> Armors.t -> Tracker.
Variable Tracker_update : Captured float -> Tracker -> Armors.t -> Tracker.

(** The ballistic [Solver]: its state, its constructor, and [solve], which
    either returns a command or throws; it may change the solver in both
    cases. *)
Variable Solver : Type.
Variable Solver_new : Solver.
Variable Solver_solve :
  Solver -> Target.t -> Time -> Solver * option GimbalCmd.t.

(** The members of [ArmorSolverNode] the callback reads or writes.  The
    publishers appear as events of the trace, and the markers that
    [publishMarkers] keeps are left out. *)
Record ArmorSolverNode : Type := {
  debug_mode_      : bool;
  tracker_         : Tracker;
  lost_time_thres_ : float;
  captured         : Captured float;
  target_frame_    : string;
  solver_          : option Solver;
  last_time_       : Time
}.

Definition set_solver_ (n : ArmorSolverNode) (s : option Solver) :=
  {| debug_mode_ := debug_mode_ n;
     tracker_ := tracker_ n;
     lost_time_thres_ := lost_time_thres_ n;
     captured := captured n;
     target_frame_ := target_frame_ n;
     solver_ := s;
     last_time_ := last_time_ n |}.

Definition set_tracker_ (n : ArmorSolverNode) (t : Tracker) :=
  {| debug_mode_ := debug_mode_ n;
     tracker_ := t;
     lost_time_thres_ := lost_time_thres_ n;
     captured := captured n;
     target_frame_ := target_frame_ n;
     solver_ := solver_ n;
     last_time_ := last_time_ n |}.

Definition set_last_time_ (n : ArmorSolverNode) (t : Time) :=
  {| debug_mode_ := debug_mode_ n;
     tracker_ := tracker_ n;
     lost_time_thres_ := lost_time_thres_ n;
     captured := captured n;
     target_frame_ := target_frame_ n;
     solver_ := solver_ n;
     last_time_ := t |}.

Definition set_dt (c : Captured float) (dt : float) : Captured float :=
  {| dt_ := dt;
     s2qx_ := s2qx_ c; s2qy_ := s2qy_ c; s2qz_ := s2qz_ c;
     s2qyaw_ := s2qyaw_ c; s2qr_ := s2qr_ c;
     r_x_ := r_x_ c; r_y_ := r_y_ c; r_z_ := r_z_ c; r_yaw_ := r_yaw_ c |}.

Definition set_dt_ (n : ArmorSolverNode) (dt : float) :=
  {| debug_mode_ := debug_mode_ n;
     tracker_ := tracker_ n;
     lost_time_thres_ := lost_time_thres_ n;
     captured := set_dt (captured n) dt;
     target_frame_ := target_frame_ n;
     solver_ := solver_ n;
     last_time_ := last_time_ n |}.

(** What one run of the callback receives from outside: the message, the
    answers of the transform buffer for this frame ([None] when
    [tf2_buffer_->transform] throws [tf2::TransformException]), and the
    clock reading [this->now()]. *)
Record Tick : Type := {
  armors_msg    : Armors.t;
  tf2_transform : Header.t -> Pose.t -> string -> option Pose.t;
  now           : Time
}.

(** What the callback does to the outside, in order. *)
Inductive Event : Type :=
| FYT_ERROR (text : string)
| call_init (armors : list Armor.t)
| call_update (dt : float) (lost_thres : Z) (armors : list Armor.t)
| measure_pub (m : Measurement.t)
| target_pub (m : Target.t)
| gimbal_pub (m : GimbalCmd.t)
| call_publishMarkers (target_msg : Target.t) (gimbal_cmd : GimbalCmd.t).

(** The batches handed to the tracker, the target messages, the gimbal
    commands and the measurements published, read off a trace. *)
Fixpoint tracker_inputs (trace : list Event) : list (list Armor.t) :=
  match trace with
  | [] => []
  | call_init l :: rest => l :: tracker_inputs rest
  | call_update _ _ l :: rest => l :: tracker_inputs rest
  | _ :: rest => tracker_inputs rest
  end.

Fixpoint published_targets (trace : list Event) : list Target.t :=
  match trace with
  | [] => []
  | target_pub m :: rest => m :: published_targets rest
  | _ :: rest => published_targets rest
  end.

Fixpoint published_gimbals (trace : list Event) : list GimbalCmd.t :=
  match trace with
  | [] => []
  | gimbal_pub m :: rest => m :: published_gimbals rest
  | _ :: rest => published_gimbals rest
  end.

Fixpoint published_measurements (trace : list Event) : list Measurement.t :=
  match trace with
  | [] => []
  | measure_pub m :: rest => m :: published_measurements rest
  | _ :: rest => published_measurements rest
  end.

(** The result of a piece of the callback: where it leaves the node (and
    what else it computed), with its events; or no defined behaviour. *)
Inductive Outcome (A : Type) : Type :=
| Returns (a : A) (trace : list Event)
| Undefined.
Arguments Undefined {A}.

(** *** Transform armor position from image frame to world coordinate *)

(** The [for] loop over [armors_msg->armors], which overwrites each pose
    in place.  The result is the list as the loop leaves it, and whether
    the loop ran to its end ([false]: a transform threw, and the armors
    from that one on are untouched). *)
Fixpoint transform_armors (tf : Header.t -> Pose.t -> string -> option Pose.t)
    (header : Header.t) (target_frame : string) (l : list Armor.t)
    : list Armor.t * bool :=
  match l with
  | [] => ([], true)
  | armor :: rest =>
      match tf header (Armor.pose armor) target_frame with
      | None => (armor :: rest, false)
      | Some p =>
          let (rest', ok) := transform_armors tf header target_frame rest in
          (Armor.set_pose armor p :: rest', ok)
      end
  end.

(** *** Filter abnormal armors *)

(** The predicate given to [std::remove_if]. *)
Definition abnormal (armor : Armor.t) : bool :=
  (2 <? abs (Point.z (Pose.position (Armor.pose armor))))%float.

(** [v.erase(std::remove_if(v.begin(), v.end(), pred), v.end())] *)
Definition erase_remove_if {A : Type} (pred : A -> bool) (v : list A) : list A :=
  filter (fun a => negb (pred a)) v.

(** *** Update tracker *)

(** [std::abs(static_cast<int>(lost_time_thres_ / dt_))] *)
Definition compute_lost_thres (lost_time_thres dt : float) : option Z :=
  match static_cast_int (lost_time_thres / dt)%float with
  | Some n => std_abs_int n
  | None => None
  end.

(** The target message of a tick whose tracker is TRACKING or TEMP_LOST. *)
Definition fill_target (target_msg : Target.t) (t : Tracker) : Target.t :=
  let state := target_state t in
  {| Target.header := Target.header target_msg;
     Target.tracking := true;
     Target.id := tracked_id t;
     Target.armors_num := ArmorsNum_to_int (tracked_armors_num t);
     Target.position := {| Point.x := nth 0 state 0%float;
                           Point.y := nth 2 state 0%float;
                           Point.z := nth 4 state 0%float |};
     Target.velocity := {| Point.x := nth 1 state 0%float;
                           Point.y := nth 3 state 0%float;
                           Point.z := nth 5 state 0%float |};
     Target.yaw := nth 6 state 0%float;
     Target.v_yaw := nth 7 state 0%float;
     Target.radius_1 := nth 8 state 0%float;
     Target.radius_2 := another_r t;
     Target.dz := dz t |}.

Definition set_tracking (m : Target.t) (b : bool) : Target.t :=
  {| Target.header := Target.header m;
     Target.tracking := b;
     Target.id := Target.id m;
     Target.armors_num := Target.armors_num m;
     Target.position := Target.position m;
     Target.velocity := Target.velocity m;
     Target.yaw := Target.yaw m;
     Target.v_yaw := Target.v_yaw m;
     Target.radius_1 := Target.radius_1 m;
     Target.radius_2 := Target.radius_2 m;
     Target.dz := Target.dz m |}.

Definition set_header (m : Target.t) (hd : Header.t) : Target.t :=
  {| Target.header := hd;
     Target.tracking := Target.tracking m;
     Target.id := Target.id m;
     Target.armors_num := Target.armors_num m;
     Target.position := Target.position m;
     Target.velocity := Target.velocity m;
     Target.yaw := Target.yaw m;
     Target.v_yaw := Target.v_yaw m;
     Target.radius_1 := Target.radius_1 m;
     Target.radius_2 := Target.radius_2 m;
     Target.dz := Target.dz m |}.

(** The measurement message read off the tracker. *)
Definition fill_measure (t : Tracker) : Measurement.t :=
  {| Measurement.x := nth 0 (measurement t) 0%float;
     Measurement.y := nth 1 (measurement t) 0%float;
     Measurement.z := nth 2 (measurement t) 0%float;
     Measurement.yaw := nth 3 (measurement t) 0%float |}.

(** The [if (tracker_->tracker_state == Tracker::LOST) ... else ...]
    statement: the node after it and the target message it leaves. *)
Definition update_tracker (this : ArmorSolverNode) (msg : Armors.t)
    (time : Time) (target_msg : Target.t)
    : Outcome (ArmorSolverNode * Target.t) :=
  if State_eqb (tracker_state (tracker_ this)) LOST then
    let tracker' := Tracker_init (captured this) (tracker_ this) msg in
    Returns (set_tracker_ this tracker', set_tracking target_msg false)
            [call_init (Armors.armors msg)]
  else
    let dt := seconds (time - last_time_ this) in
    let this := set_dt_ this dt in
    match compute_lost_thres (lost_time_thres_ this) dt with
    | None => Undefined
    | Some n =>
        let tracker := set_lost_thres (tracker_ this) n in
        let tracker' := Tracker_update (captured this) tracker msg in
        let this := set_tracker_ this tracker' in
        (* Publish measurement *)
        let measure_msg := fill_measure tracker' in
        let target_msg :=
          if State_eqb (tracker_state tracker') DETECTING then
            set_tracking target_msg false
          else if State_eqb (tracker_state tracker') TRACKING
                  || State_eqb (tracker_state tracker') TEMP_LOST then
            fill_target target_msg tracker'
          else target_msg in
        Returns (this, target_msg)
                [call_update dt n (Armors.armors msg); measure_pub measure_msg]
    end.

(** *** Solve control command *)

(** The value written on both paths that do not come from the solver. *)
Definition neutral_cmd (control_msg : GimbalCmd.t) : GimbalCmd.t :=
  {| GimbalCmd.pitch := GimbalCmd.pitch control_msg;
     GimbalCmd.yaw := GimbalCmd.yaw control_msg;
     GimbalCmd.pitch_diff := 0%float;
     GimbalCmd.yaw_diff := 0%float;
     GimbalCmd.distance := (-1)%float;
     GimbalCmd.fire_advice := false |}.

(** The [if (target_msg.tracking) { try ... catch (...) ... } else ...]
    statement: the solver after it, the control message, and the error
    logged when the solver threw. *)
Definition solve_control (solver : Solver) (target_msg : Target.t)
    (now : Time) : Solver * GimbalCmd.t * list Event :=
  let control_msg := GimbalCmd.default in
  if Target.tracking target_msg then
    match Solver_solve solver target_msg now with
    | (solver', Some cmd) => (solver', cmd, [])
    | (solver', None) =>
        (solver', neutral_cmd control_msg,
         [FYT_ERROR "Something went wrong in solver!"])
    end
  else (solver, neutral_cmd control_msg, []).

(** *** The callback *)

(** The solver after [if (solver_ == nullptr) solver_ = make_unique(...)]. *)
Definition lazy_solver (this : ArmorSolverNode) : Solver :=
  match solver_ this with Some s => s | None => Solver_new end.

Definition armorsCallback (this : ArmorSolverNode) (tick : Tick)
    : Outcome (ArmorSolverNode * Armors.t) :=
  let msg := armors_msg tick in
  (* Lazy initialize solver *)
  let solver := lazy_solver this in
  let this := set_solver_ this (Some solver) in
  (* Transform armor position from image frame to world coordinate *)
  match transform_armors (tf2_transform tick) (Armors.header msg)
                         (target_frame_ this) (Armors.armors msg) with
  | (l, false) =>
      Returns (this, Armors.set_armors msg l) [FYT_ERROR "Transform error"]
  | (l, true) =>
      (* Filter abnormal armors *)
      let msg := Armors.set_armors msg (erase_remove_if abnormal l) in
      (* Init message *)
      let time := Header.stamp (Armors.header msg) in
      let target_msg :=
        set_header Target.default
          {| Header.stamp := time; Header.frame_id := target_frame_ this |} in
      (* Update tracker *)
      match update_tracker this msg time target_msg with
      | Undefined => Undefined
      | Returns (this, target_msg) ev_tracker =>
          (* Solve control command *)
          let '(solver', control_msg, ev_solver) :=
            solve_control solver target_msg (now tick) in
          let this := set_solver_ this (Some solver') in
          let ev_markers :=
            if debug_mode_ this
            then [call_publishMarkers target_msg control_msg] else [] in
          Returns (set_last_time_ this time, msg)
                  (ev_tracker ++ [target_pub target_msg] ++ ev_solver
                   ++ [gimbal_pub control_msg] ++ ev_markers)
      end
  end.

(** The frame gets through the transform loop. *)
Definition survives (this : ArmorSolverNode) (tick : Tick) : bool :=
  snd (transform_armors (tf2_transform tick)
         (Armors.header (armors_msg tick)) (target_frame_ this)
         (Armors.armors (armors_msg tick))).

(** The armors of the frame as the transform loop leaves them. *)
Definition transformed (this : ArmorSolverNode) (tick : Tick) : list Armor.t :=
  fst (transform_armors (tf2_transform tick)
         (Armors.header (armors_msg tick)) (target_frame_ this)
         (Armors.armors (armors_msg tick))).

(** The header stamp of the frame. *)
Definition stamp_of (tick : Tick) : Time :=
  Header.stamp (Armors.header (armors_msg tick)).

(** The message after the transform loop and the filter. *)
Definition filtered (this : ArmorSolverNode) (tick : Tick) : Armors.t :=
  Armors.set_armors (armors_msg tick)
    (erase_remove_if abnormal (transformed this tick)).

(** The target message before the tracker is run: default-constructed,
    then stamped. *)
Definition init_target (this : ArmorSolverNode) (tick : Tick) : Target.t :=
  set_header Target.default
    {| Header.stamp := stamp_of tick; Header.frame_id := target_frame_ this |}.

(** The inactive gimbal command: (0, 0, -1, false). *)
Definition neutral (g : GimbalCmd.t) : Prop :=
  GimbalCmd.yaw_diff g = 0%float /\ GimbalCmd.pitch_diff g = 0%float
  /\ GimbalCmd.distance g = (-1)%float /\ GimbalCmd.fire_advice g = false.

(** The callback run on a sequence of frames, oldest first: the node at
    the end, provided every run was defined. *)
Fixpoint run (this : ArmorSolverNode) (ticks : list Tick)
    : option ArmorSolverNode :=
  match ticks with
  | [] => Some this
  | tick :: rest =>
      match armorsCallback this tick with
      | Returns (this', _) _ => run this' rest
      | Undefined => None
      end
  end.

(** The stamp of the latest frame of a sequence that got through the
    transform loop, if one did. *)
Fixpoint last_survivor (this : ArmorSolverNode) (ticks : list Tick)
    : option Time :=
  match ticks with
  | [] => None
  | tick :: rest =>
      match last_survivor this rest with
      | Some s => Some s
      | None =>
          if survives this tick then Some (stamp_of tick) else None
      end
  end.
End Node.

Arguments Undefined {A}.

(** ** A stand-in tracker and solver *)

(** The tracker and the solver are linked in from other files.  To run the
    callback on concrete frames, this module supplies a small tracker that
    follows the state machine of the specification, with association
    reduced to "an armor with the tracked number is in the batch" and no
    filtering, and a solver that throws on a target at the origin. *)
Module Demo.
Record Internals := { detect_count : Z; lost_count : Z }.

Definition Tracker := Tracker Internals.

Definition observe (a : Armor.t) : VectorXd float :=
  let p := Pose.position (Armor.pose a) in
  [Point.x p; Point.y p; Point.z p; Pose.yaw (Armor.pose a)].

Definition init (_ : Captured float) (t : Tracker) (msg : Armors.t) : Tracker :=
  match Armors.armors msg with
  | [] => t
  | a :: _ =>
      let p := Pose.position (Armor.pose a) in
      {| tracker_state := DETECTING;
         tracked_id := Armor.number a;
         tracked_armors_num := NORMAL_4;
         target_state := [Point.x p; 0; Point.y p; 0; Point.z p; 0;
                          Pose.yaw (Armor.pose a); 0; 0.26]%float;
         measurement := observe a;
         another_r := 0.26%float;
         dz := 0%float;
         tracking_thres := tracking_thres t;
         lost_thres := lost_thres t;
         internals := {| detect_count := 0; lost_count := 0 |} |}
  end.

Definition with_state (t : Tracker) (s : State) (dc lc : Z)
    (m : option Armor.t) : Tracker :=
  {| tracker_state := s;
     tracked_id := tracked_id t;
     tracked_armors_num := tracked_armors_num t;
     target_state :=
       match m with
       | Some a =>
           let p := Pose.position (Armor.pose a) in
           [Point.x p; nth 1 (target_state t) 0; Point.y p;
            nth 3 (target_state t) 0; Point.z p; nth 5 (target_state t) 0;
            Pose.yaw (Armor.pose a); nth 7 (target_state t) 0;
            nth 8 (target_state t) 0]%float
       | None => target_state t
       end;
     measurement := match m with Some a => observe a | None => measurement t end;
     another_r := another_r t;
     dz := dz t;
     tracking_thres := tracking_thres t;
     lost_thres := lost_thres t;
     internals := {| detect_count := dc; lost_count := lc |} |}.

Definition update (_ : Captured float) (t : Tracker) (msg : Armors.t) : Tracker :=
  let matched :=
    find (fun a => String.eqb (Armor.number a) (tracked_id t))
         (Armors.armors msg) in
  let dc := detect_count (internals t) in
  let lc := lost_count (internals t) in
  match tracker_state t, matched with
  | DETECTING, Some a =>
      if (tracking_thres t <=? dc + 1)%Z
      then with_state t TRACKING 0 lc matched
      else with_state t DETECTING (dc + 1) lc matched
  | DETECTING, None => with_state t LOST 0 lc None
  | TRACKING, Some a => with_state t TRACKING dc lc matched
  | TRACKING, None => with_state t TEMP_LOST dc 1 None
  | TEMP_LOST, Some a => with_state t TRACKING dc 0 matched
  | TEMP_LOST, None =>
      if (lost_thres t <? lc + 1)%Z
      then with_state t LOST dc 0 None
      else with_state t TEMP_LOST dc (lc + 1) None
  | LOST, _ => t
  end.

(** A solver that aims straight at the target centre and throws when the
    target sits at the origin. *)
Definition solve (s : unit) (target : Target.t) (_ : Time)
    : unit * option GimbalCmd.t :=
  let p := Target.position target in
  if (is_zero (Point.x p) && is_zero (Point.y p))%bool then (s, None)
  else (s, Some {| GimbalCmd.pitch := Point.z p;
                   GimbalCmd.yaw := Target.yaw target;
                   GimbalCmd.pitch_diff := Point.z p;
                   GimbalCmd.yaw_diff := Target.yaw target;
                   GimbalCmd.distance := Point.x p;
                   GimbalCmd.fire_advice := true |}).

Definition callback := armorsCallback init update tt solve.

(** The node as the constructor leaves it, with the default parameters. *)
Definition node0 : ArmorSolverNode Internals unit := {|
  debug_mode_ := true;
  tracker_ := {| tracker_state := LOST;
                 tracked_id := EmptyString;
                 tracked_armors_num := NORMAL_4;
                 target_state := repeat 0%float 9;
                 measurement := repeat 0%float 4;
                 another_r := 0%float;
                 dz := 0%float;
                 tracking_thres := 5%Z;
                 lost_thres := 0%Z;
                 internals := {| detect_count := 0%Z; lost_count := 0%Z |} |};
  lost_time_thres_ := 0.3%float;
  captured := {| dt_ := 0; s2qx_ := 20; s2qy_ := 20; s2qz_ := 20;
                 s2qyaw_ := 100; s2qr_ := 800;
                 r_x_ := 0.05; r_y_ := 0.05; r_z_ := 0.05;
                 r_yaw_ := 0.02 |}%float;
  target_frame_ := "odom";
  solver_ := None;
  last_time_ := 0%Z
|}.

Definition armor (number : string) (x y z yaw : float) : Armor.t :=
  {| Armor.number := number; Armor.type := "small";
     Armor.pose := {| Pose.position := {| Point.x := x; Point.y := y; Point.z := z |};
                      Pose.yaw := yaw |} |}.

(** A frame stamped [stamp] nanoseconds whose poses are already in the
    target frame, so that the transform returns them as they are. *)
Definition frame (stamp : Time) (l : list Armor.t) : Tick :=
  {| armors_msg := {| Armors.header := {| Header.stamp := stamp;
                                          Header.frame_id := "odom" |};
                      Armors.armors := l |};
     tf2_transform := fun _ p _ => Some p;
     now := stamp |}.

(** A frame for which the transform buffer has no answer. *)
Definition stale_frame (stamp : Time) (l : list Armor.t) : Tick :=
  {| armors_msg := {| Armors.header := {| Header.stamp := stamp;
                                          Header.frame_id := "camera" |};
                      Armors.armors := l |};
     tf2_transform := fun _ _ _ => None;
     now := stamp |}.

(** The node after the callback ran on [ticks]; the node is left as it
    is by a run without defined behaviour. *)
Definition after (this : ArmorSolverNode Internals unit) (ticks : list Tick) :=
  match run init update tt solve this ticks with
  | Some this' => this'
  | None => this
  end.

(** The events of an outcome, and what it returned ([d] when it has no
    defined behaviour). *)
Definition events {A : Type} (o : Outcome A) : list Event :=
  match o with
  | Returns _ tr => tr
  | Undefined => []
  end.

Definition value {A : Type} (d : A) (o : Outcome A) : A :=
  match o with
  | Returns a _ => a
  | Undefined => d
  end.

Definition node_of (o : Outcome (ArmorSolverNode Internals unit * Armors.t)) :=
  fst (value (node0, {| Armors.header := Header.default; Armors.armors := [] |}) o).

Definition msg_of (o : Outcome (ArmorSolverNode Internals unit * Armors.t)) :=
  snd (value (node0, {| Armors.header := Header.default; Armors.armors := [] |}) o).

(** Observations: a plate one metre ahead; the same with an infinite
    yaw; one whose height is not a number; one three metres up; one at
    the origin. *)
Definition a1 : Armor.t := armor "3" 1 0 0.1 0.
Definition a_inf : Armor.t := armor "3" 1 0 0.1 infinity.
Definition a_nan : Armor.t := armor "3" 1 0 nan 0.
Definition a_high : Armor.t := armor "3" 1 0 3 0.
Definition a_origin : Armor.t := armor "3" 0 0 0.1 0.

(** [n] frames 10 ms apart, the first stamped 10 ms, carrying the same
    observation. *)
Definition steady (a : Armor.t) (n : nat) : list Tick :=
  map (fun i => frame (Z.of_nat i * 10000000)%Z [a]) (seq 1 n).

(** The node after one frame (the tracker is DETECTING) and after six
    (the tracker is TRACKING). *)
Definition detecting_node := Eval vm_compute in after node0 (steady a1 1).
Definition tracking_node := Eval vm_compute in after node0 (steady a1 6).
Definition tracking_origin_node :=
  Eval vm_compute in after node0 (steady a_origin 6).
End Demo.

(** ** The closures at another time step *)

(** The captured members with [dt_] replaced, for any scalar type. *)
Definition with_dt {D : Type} (c : Captured D) (dt : D) : Captured D := {|
  dt_ := dt;
  s2qx_ := s2qx_ c; s2qy_ := s2qy_ c; s2qz_ := s2qz_ c;
  s2qyaw_ := s2qyaw_ c; s2qr_ := s2qr_ c;
  r_x_ := r_x_ c; r_y_ := r_y_ c; r_z_ := r_z_ c; r_yaw_ := r_yaw_ c
|}.

(** ** One step of the transform loop *)

(** The armor after one successful iteration of the transform loop; an
    armor whose lookup throws is left as it is. *)
Definition transform_one (tf : Header.t -> Pose.t -> string -> option Pose.t)
    (header : Header.t) (target_frame : string) (armor : Armor.t) : Armor.t :=
  match tf header (Armor.pose armor) target_frame with
  | Some p => Armor.set_pose armor p
  | None => armor
  end.

(** ** Visualization markers *)

(** Modelled from the spec: [visualization_msgs::msg::Marker] is declared
    outside this file.  The records carry the members that the
    constructor and [publishMarkers] write.  The colour channels are
    [float] in the message; [publishMarkers] stores only 0 and 1 in them. *)
Module Marker.
Inductive Type_ : Type := ARROW | SPHERE | SPHERE_LIST | POINTS.
Inductive Action : Type := ADD | DELETE.
Record ColorRGBA := { r : float; g : float; b : float; a : float }.
Record pose_t := { position : Point.t }.
Record t := {
  header : Header.t;
  ns     : string;
  type   : Type_;
  action : Action;
  pose   : pose_t;
  scale  : Point.t;
  color  : ColorRGBA;
  points : list Point.t
}.

Definition set_header (m : t) (hd : Header.t) : t :=
  {| header := hd; ns := ns m; type := type m; action := action m;
     pose := pose m; scale := scale m; color := color m; points := points m |}.
Definition set_action (m : t) (act : Action) : t :=
  {| header := header m; ns := ns m; type := type m; action := act;
     pose := pose m; scale := scale m; color := color m; points := points m |}.
Definition set_position (m : t) (pt : Point.t) : t :=
  {| header := header m; ns := ns m; type := type m; action := action m;
     pose := {| position := pt |}; scale := scale m; color := color m;
     points := points m |}.
Definition set_points (m : t) (l : list Point.t) : t :=
  {| header := header m; ns := ns m; type := type m; action := action m;
     pose := pose m; scale := scale m; color := color m; points := l |}.
(** [color.r = r; color.g = g; color.b = b], the alpha channel untouched. *)
Definition set_rgb (m : t) (cr cg cb : float) : t :=
  {| header := header m; ns := ns m; type := type m; action := action m;
     pose := pose m; scale := scale m;
     color := {| r := cr; g := cg; b := cb; a := a (color m) |};
     points := points m |}.
End Marker.

(** The six marker members of the node. *)
Record Markers : Type := {
  position_marker_     : Marker.t;
  linear_v_marker_     : Marker.t;
  angular_v_marker_    : Marker.t;
  armors_marker_       : Marker.t;
  aimming_line_marker_ : Marker.t;
  trajectory_marker_   : Marker.t
}.

(** The marker array as [publishMarkers] fills it: position, trajectory,
    linear_v, angular_v, armors, aimming_line. *)
Definition marker_array (ms : Markers) : list Marker.t :=
  [ position_marker_ ms; trajectory_marker_ ms; linear_v_marker_ ms;
    angular_v_marker_ ms; armors_marker_ ms; aimming_line_marker_ ms ].

(** [M_PI], the double nearest to pi. *)
Definition M_PI : float := 0x1.921fb54442d18p+1%float.

(** [static_cast<double>(n)] for an unsigned 64-bit integer [n]: the nearest
    double. *)
Definition size_t_to_double (n : Z) : float :=
  SF2Prim (binary_normalize prec emax n 0 false).

(** The conversion of an [int] to [size_t]: modulo 2^64. *)
Definition int_to_size_t (n : Z) : Z := (n mod 2 ^ 64)%Z.

Section PublishMarkers.
(** [cos] and [sin] of libm. *)
Variables libm_cos libm_sin : float -> float.

(** [solver_->getTrajectory(distance, angle)]: the points of the predicted
    trajectory, as pairs. *)
Variable getTrajectory : float -> float -> list (float * float).

Local Open Scope float_scope.

(** The [for (size_t i = 0; i < a_n; i++)] loop that draws the armors:
    [todo] iterations are left, the next one has index [i], and
    [is_current_pair] is the flag as the previous iterations left it.  The
    result is the points pushed, in order. *)
Fixpoint draw_armors (todo : nat) (i : Z) (is_current_pair : bool)
    (a_n : Z) (yaw r1 r2 xc yc za dz : float) : list Point.t :=
  match todo with
  | O => []
  | S todo' =>
      let tmp_yaw := yaw + size_t_to_double i * (2 * M_PI / size_t_to_double a_n) in
      (* Only 4 armors has 2 radius and height *)
      let r := if (a_n =? 4)%Z then (if is_current_pair then r1 else r2) else r1 in
      let z := if (a_n =? 4)%Z
               then za + (if is_current_pair then 0 else dz) else za in
      let is_current_pair' :=
        if (a_n =? 4)%Z then negb is_current_pair else is_current_pair in
      {| Point.x := xc - r * libm_cos tmp_yaw;
         Point.y := yc - r * libm_sin tmp_yaw;
         Point.z := z |}
      :: draw_armors todo' (i + 1)%Z is_current_pair' a_n yaw r1 r2 xc yc za dz
  end.

(** The points of the trajectory marker. *)
Definition trajectory_points (gimbal_cmd : GimbalCmd.t) : list Point.t :=
  map (fun point => {| Point.x := fst point; Point.y := 0; Point.z := snd point |})
      (getTrajectory (GimbalCmd.distance gimbal_cmd)
                     (GimbalCmd.pitch gimbal_cmd * M_PI / 180)).

(** [ArmorSolverNode::publishMarkers]: the markers as it leaves them and the
    marker array it publishes.  [target_frame] is the member
    [target_frame_] and [now] the clock reading [this->now()]. *)
Definition publishMarkers (ms : Markers) (target_frame : string) (now : Time)
    (target_msg : Target.t) (gimbal_cmd : GimbalCmd.t)
    : Markers * list Marker.t :=
  let hd := Target.header target_msg in
  let position_marker := Marker.set_header (position_marker_ ms) hd in
  let linear_v_marker := Marker.set_header (linear_v_marker_ ms) hd in
  let angular_v_marker := Marker.set_header (angular_v_marker_ ms) hd in
  let armors_marker := Marker.set_header (armors_marker_ ms) hd in
  let aimming_line_marker :=
    Marker.set_header (aimming_line_marker_ ms)
      {| Header.stamp := Header.stamp hd;
         Header.frame_id := (target_frame ++ "_rectify")%string |} in
  let trajectory_marker := trajectory_marker_ ms in
  let ms' :=
    if Target.tracking target_msg then
      let yaw := Target.yaw target_msg in
      let r1 := Target.radius_1 target_msg in
      let r2 := Target.radius_2 target_msg in
      let xc := Point.x (Target.position target_msg) in
      let yc := Point.y (Target.position target_msg) in
      let za := Point.z (Target.position target_msg) in
      let vx := Point.x (Target.velocity target_msg) in
      let vy := Point.y (Target.velocity target_msg) in
      let vz := Point.z (Target.velocity target_msg) in
      let dz := Target.dz target_msg in
      let centre := {| Point.x := xc; Point.y := yc; Point.z := za + dz / 2 |} in
      let position_marker :=
        Marker.set_position (Marker.set_action position_marker Marker.ADD) centre in
      let linear_v_marker :=
        Marker.set_points (Marker.set_action linear_v_marker Marker.ADD)
          [ centre;
            {| Point.x := Point.x centre + vx;
               Point.y := Point.y centre + vy;
               Point.z := Point.z centre + vz |} ] in
      let angular_v_marker :=
        Marker.set_points (Marker.set_action angular_v_marker Marker.ADD)
          [ centre;
            {| Point.x := Point.x centre;
               Point.y := Point.y centre;
               Point.z := Point.z centre + Target.v_yaw target_msg / M_PI |} ] in
      (* Draw armors *)
      let a_n := int_to_size_t (Target.armors_num target_msg) in
      let armors_marker :=
        Marker.set_points (Marker.set_action armors_marker Marker.ADD)
          (draw_armors (Z.to_nat a_n) 0 true a_n yaw r1 r2 xc yc za dz) in
      let aimming_line_end :=
        {| Point.x := 15 * libm_cos (GimbalCmd.yaw gimbal_cmd * M_PI / 180);
           Point.y := 15 * libm_sin (GimbalCmd.yaw gimbal_cmd * M_PI / 180);
           Point.z := 15 * libm_sin (GimbalCmd.pitch gimbal_cmd * M_PI / 180) |} in
      let aimming_line_marker :=
        Marker.set_points (Marker.set_action aimming_line_marker Marker.ADD)
          [Point.default; aimming_line_end] in
      let aimming_line_marker :=
        if GimbalCmd.fire_advice gimbal_cmd
        then Marker.set_rgb aimming_line_marker 0 1 0
        else Marker.set_rgb aimming_line_marker 1 1 1 in
      let trajectory_marker :=
        Marker.set_points
          (Marker.set_header (Marker.set_action trajectory_marker Marker.ADD)
             {| Header.stamp := now; Header.frame_id := "gimbal_link" |})
          (trajectory_points gimbal_cmd) in
      {| position_marker_ := position_marker;
         linear_v_marker_ := linear_v_marker;
         angular_v_marker_ := angular_v_marker;
         armors_marker_ := armors_marker;
         aimming_line_marker_ := aimming_line_marker;
         trajectory_marker_ := trajectory_marker |}
    else
      {| position_marker_ := Marker.set_action position_marker Marker.DELETE;
         linear_v_marker_ := Marker.set_action linear_v_marker Marker.DELETE;
         angular_v_marker_ := Marker.set_action angular_v_marker Marker.DELETE;
         armors_marker_ := Marker.set_action armors_marker Marker.DELETE;
         aimming_line_marker_ :=
           Marker.set_action aimming_line_marker Marker.DELETE;
         trajectory_marker_ := Marker.set_action trajectory_marker Marker.DELETE |} in
  (ms', marker_array ms').

(** The markers after [publishMarkers] ran for each pair of a sequence,
    oldest first, with the clock reading attached to each. *)
Fixpoint publish_all (ms : Markers) (target_frame : string)
    (calls : list (Time * Target.t * GimbalCmd.t)) : Markers :=
  match calls with
  | [] => ms
  | (now, target_msg, gimbal_cmd) :: rest =>
      publish_all (fst (publishMarkers ms target_frame now target_msg gimbal_cmd))
                  target_frame rest
  end.
End PublishMarkers.

(** A default-constructed marker. *)
Definition Marker_default : Marker.t :=
  {| Marker.header := Header.default;
     Marker.ns := EmptyString;
     Marker.type := Marker.ARROW;
     Marker.action := Marker.ADD;
     Marker.pose := {| Marker.position := Point.default |};
     Marker.scale := Point.default;
     Marker.color := {| Marker.r := 0; Marker.g := 0; Marker.b := 0; Marker.a := 0 |};
     Marker.points := [] |}%float.

(** A marker with its namespace, type, scale and colour set, as the
    constructor does member by member. *)
Definition styled_marker (ns : string) (ty : Marker.Type_)
    (sx sy sz cr cg cb ca : float) : Marker.t :=
  {| Marker.header := Marker.header Marker_default;
     Marker.ns := ns;
     Marker.type := ty;
     Marker.action := Marker.action Marker_default;
     Marker.pose := Marker.pose Marker_default;
     Marker.scale := {| Point.x := sx; Point.y := sy; Point.z := sz |};
     Marker.color := {| Marker.r := cr; Marker.g := cg; Marker.b := cb; Marker.a := ca |};
     Marker.points := [] |}.

(** The six markers as the constructor leaves them.  The blue channel of
    the trajectory marker is 0.79 rounded to single precision. *)
Definition constructor_markers : Markers := {|
  position_marker_ :=
    styled_marker "position" Marker.SPHERE 0.1 0.1 0.1 0 1 0 1;
  linear_v_marker_ :=
    styled_marker "linear_v" Marker.ARROW 0.03 0.05 0 1 1 0 1;
  angular_v_marker_ :=
    styled_marker "angular_v" Marker.ARROW 0.03 0.05 0 0 1 1 1;
  armors_marker_ :=
    styled_marker "filtered_armors" Marker.SPHERE_LIST 0.1 0.1 0.1 1 0 0 1;
  aimming_line_marker_ :=
    styled_marker "aimming_line" Marker.ARROW 0.03 0.05 0 1 1 1 0.5;
  trajectory_marker_ :=
    styled_marker "trajectory" Marker.POINTS 0.01 0.01 0 1 0.75 0x1.947ae2p-1 1
|}%float.

(** ** Stand-ins for libm and the trajectory *)

(** The kernel has no [cos] and [sin] on binary64.  To run [publishMarkers]
    on concrete messages, this module takes their values at 0 everywhere
    and a trajectory of two points; the facts proved about
    [publishMarkers] hold for any functions in their place. *)
Module DemoMarkers.
Definition cos0 (_ : float) : float := 1%float.
Definition sin0 (_ : float) : float := 0%float.
Definition trajectory (distance angle : float) : list (float * float) :=
  [(0, 0); (distance, angle)]%float.
Definition publish := publishMarkers cos0 sin0 trajectory.

(** A snapshot of a four-plate target and one of no target. *)
Definition tracked : Target.t :=
  {| Target.header := {| Header.stamp := 70000000%Z; Header.frame_id := "odom" |};
     Target.tracking := true;
     Target.id := "3";
     Target.armors_num := 4%Z;
     Target.position := {| Point.x := 1; Point.y := 0; Point.z := 0.1 |};
     Target.velocity := {| Point.x := 0.5; Point.y := 0; Point.z := 0 |};
     Target.yaw := 0;
     Target.v_yaw := 1;
     Target.radius_1 := 0.25;
     Target.radius_2 := 0.27;
     Target.dz := 0.05 |}%float.
Definition untracked : Target.t :=
  {| Target.header := {| Header.stamp := 80000000%Z; Header.frame_id := "odom" |};
     Target.tracking := false;
     Target.id := EmptyString;
     Target.armors_num := 0%Z;
     Target.position := Point.default;
     Target.velocity := Point.default;
     Target.yaw := 0;
     Target.v_yaw := 0;
     Target.radius_1 := 0;
     Target.radius_2 := 0;
     Target.dz := 0 |}%float.
Definition fire : GimbalCmd.t :=
  {| GimbalCmd.pitch := 2; GimbalCmd.yaw := 10;
     GimbalCmd.pitch_diff := 0; GimbalCmd.yaw_diff := 0;
     GimbalCmd.distance := 3; GimbalCmd.fire_advice := true |}%float.
End DemoMarkers.

(** * Facts about the closures *)

Section Closure_facts.
Context {D : Type} {ops : DoubleOps D}.
Local Open Scope double_scope.

Variable this : Captured D.

(** The matrix that [u_q] returns, entry by entry, in terms of the
    configured densities: the (za, za) and (za, v_za) entries and the
    (yaw, v_yaw) entry are scaled by [s2qx_]. *)
Lemma u_q_blocks :
  let t := dt_ this in
  let o := lit 0 in
  u_q this =
  [ [dpow t 4 / lit 4 * s2qx_ this; dpow t 3 / lit 2 * s2qx_ this; o; o; o; o; o; o; o];
    [dpow t 3 / lit 2 * s2qx_ this; dpow t 2 * s2qx_ this; o; o; o; o; o; o; o];
    [o; o; dpow t 4 / lit 4 * s2qy_ this; dpow t 3 / lit 2 * s2qy_ this; o; o; o; o; o];
    [o; o; dpow t 3 / lit 2 * s2qy_ this; dpow t 2 * s2qy_ this; o; o; o; o; o];
    [o; o; o; o; dpow t 4 / lit 4 * s2qx_ this; dpow t 3 / lit 2 * s2qx_ this; o; o; o];
    [o; o; o; o; dpow t 3 / lit 2 * s2qx_ this; dpow t 2 * s2qz_ this; o; o; o];
    [o; o; o; o; o; o; dpow t 4 / lit 4 * s2qyaw_ this; dpow t 3 / lit 2 * s2qx_ this; o];
    [o; o; o; o; o; o; dpow t 3 / lit 2 * s2qx_ this; dpow t 2 * s2qyaw_ this; o];
    [o; o; o; o; o; o; o; o; dpow t 4 / lit 4 * s2qr_ this] ].
Proof. reflexivity. Qed.

(** C8: for every measurement vector z, [u_r] returns the diagonal 4x4
    matrix diag(|r_x z0|, |r_y z1|, |r_z z2|, r_yaw): every entry off the
    diagonal is zero, the x, y and z entries are the absolute values of
    the products with the measurement components, and the yaw entry is
    the constant r_yaw whatever z is. *)
Theorem u_r_diagonal (z : VectorXd D) :
  let o := lit 0 in
  toDenseMatrix 4 (u_r this z) =
    [ [dabs (r_x_ this * coeff z 0); o; o; o];
      [o; dabs (r_y_ this * coeff z 1); o; o];
      [o; o; dabs (r_z_ this * coeff z 2); o];
      [o; o; o; r_yaw_ this] ]
  /\ (forall i j, i <> j -> dcoeff (u_r this z) i j = lit 0)
  /\ (forall z' : VectorXd D, dcoeff (u_r this z') 3 3 = dcoeff (u_r this z) 3 3).
Proof.
  split; [reflexivity|]. split.
  - intros i j Hij. unfold dcoeff.
    destruct (Nat.eqb_spec i j); [contradiction | reflexivity].
  - reflexivity.
Qed.
End Closure_facts.

(** ** The measurement noise in binary64 *)

Section Closures_binary64.
Variables libm_cos libm_sin : float -> float.
Variable libm_pow : float -> Z -> float.

(** With the default parameters and the measurement (1, -2, 0.5, 0.1),
    [u_r] returns diag(0.05, 0.1, 0.025, 0.02). *)
Local Abbreviation binary64 := (BinaryOps libm_cos libm_sin libm_pow).

Example u_r_at_defaults :
  toDenseMatrix (ops := binary64) 4
    (u_r (ops := binary64) (default_captured (ops := binary64) 0%float)
         [1; -2; 0.5; 0.1]%float)
  = [ [0.05; 0; 0; 0]; [0; 0.1; 0; 0]; [0; 0; 0.025; 0]; [0; 0; 0; 0.02] ]%float.
Proof. vm_compute. reflexivity. Qed.
End Closures_binary64.

(** ** The observation model over the reals *)

Section Jacobian.
Local Open Scope R_scope.

Lemma dlim_const (c a : R) : derivable_pt_lim (fun _ => c) a 0.
Proof. exact (derivable_pt_lim_const c a). Qed.

Lemma dlim_id (a : R) : derivable_pt_lim (fun t => t) a 1.
Proof. exact (derivable_pt_lim_id a). Qed.

(** The derivative of [t - c] in [t]. *)
Lemma dlim_centre (c a : R) : derivable_pt_lim (fun t => t - c) a 1.
Proof.
  replace 1 with (1 - 0) by lra.
  apply (derivable_pt_lim_minus (fun t => t) (fun _ => c));
    [apply dlim_id | apply dlim_const].
Qed.

(** The derivative of [c - r * g t] in [t], from that of [g]. *)
Lemma dlim_arm_angle (g : R -> R) (c r a l : R) :
  derivable_pt_lim g a l ->
  derivable_pt_lim (fun t => c - r * g t) a (- r * l).
Proof.
  intro Hg.
  replace (- r * l) with (0 - (0 * g a + r * l)) by lra.
  apply (derivable_pt_lim_minus (fun _ => c) (fun t => r * g t)).
  - apply dlim_const.
  - apply (derivable_pt_lim_mult (fun _ => r) g); [apply dlim_const | exact Hg].
Qed.

(** The derivative of [c - t * k] in [t]. *)
Lemma dlim_arm_radius (c k a : R) :
  derivable_pt_lim (fun t => c - t * k) a (- k).
Proof.
  replace (- k) with (0 - (1 * k + a * 0)) by lra.
  apply (derivable_pt_lim_minus (fun _ => c) (fun t => t * k)).
  - apply dlim_const.
  - apply (derivable_pt_lim_mult (fun t => t) (fun _ => k));
      [apply dlim_id | apply dlim_const].
Qed.

(** C2: for every 9-dimensional state x, [h] returns
    (xc - r cos yaw, yc - r sin yaw, za, yaw) with xc = x(0), yc = x(2),
    za = x(4), yaw = x(6), r = x(8); and [j_h x] is the Jacobian of
    these four equations: its entry (i, j) is the derivative of the i-th
    equation in the j-th state component, at x. *)
Theorem j_h_is_jacobian_of_h (x : VectorXd R) :
  List.length x = 9%nat ->
  h x = [ coeff x 0 - coeff x 8 * cos (coeff x 6);
          coeff x 2 - coeff x 8 * sin (coeff x 6);
          coeff x 4;
          coeff x 6 ]
  /\ List.length (j_h x) = 4%nat
  /\ (forall i, (i < 4)%nat -> List.length (nth i (j_h x) []) = 9%nat)
  /\ (forall i j, (i < 4)%nat -> (j < 9)%nat ->
        derivable_pt_lim (fun t => coeff (h (set_coeff x j t)) i)
                         (coeff x j) (mcoeff (j_h x) i j)).
Proof.
  intro Hlen.
  do 9 (destruct x as [| ? x]; [discriminate Hlen |]).
  destruct x; [clear Hlen | discriminate Hlen].
  split; [reflexivity |]. split; [reflexivity |]. split.
  - intros i Hi. do 4 (destruct i as [| i]; [reflexivity |]). lia.
  - intros i j Hi Hj.
    destruct i as [| [| [| [| i]]]]; try lia;
      destruct j as [| [| [| [| [| [| [| [| [| j]]]]]]]]]; try lia; cbn;
      first [ apply dlim_const | apply dlim_id | apply dlim_centre | idtac ].
    + match goal with
      | |- derivable_pt_lim _ ?a (?r * sin ?a) =>
          replace (r * sin a) with (- r * - sin a) by lra
      end.
      apply dlim_arm_angle, derivable_pt_lim_cos.
    + apply dlim_arm_radius.
    + apply dlim_arm_angle, derivable_pt_lim_sin.
    + apply dlim_arm_radius.
Qed.

(** At a state of length 9 the theorem applies: the robot centre at
    (1, 2), a plate at height 0.1 and yaw 0 on a radius of 1/4. *)
Lemma j_h_is_jacobian_of_h_witness :
  List.length [1; 0; 2; 0; 1/10; 0; 0; 0; 1/4] = 9%nat /\
  derivable_pt_lim
    (fun t => coeff (h (set_coeff [1; 0; 2; 0; 1/10; 0; 0; 0; 1/4] 8 t)) 0)
    (coeff [1; 0; 2; 0; 1/10; 0; 0; 0; 1/4] 8)
    (mcoeff (j_h [1; 0; 2; 0; 1/10; 0; 0; 0; 1/4]) 0 8).
Proof.
  split; [reflexivity |].
  apply (j_h_is_jacobian_of_h [1; 0; 2; 0; 1/10; 0; 0; 0; 1/4]);
    [reflexivity | lia | lia].
Defined.
End Jacobian.

(** ** The process noise at the default parameters *)

Section Process_noise.
Local Open Scope R_scope.

(** C1, where the code departs from it: with dt = 1 s and the default
    densities (20 for x, y and z, 100 for yaw), the (yaw, v_yaw) entries
    of the matrix [u_q] returns are dt^3/2 * sigma2_q_x = 10, not
    dt^3/2 * sigma2_q_yaw = 50; and with sigma2_q_z = 30 in place of 20,
    the (za, za) and (za, v_za) entries are 5 and 10, computed from
    sigma2_q_x, not 7.5 and 15. *)
Theorem u_q_mixes_axes :
  mcoeff (u_q (default_captured 1)) 6 7 = 10
  /\ mcoeff (u_q (default_captured 1)) 7 6 = 10
  /\ dpow 1 3 / 2 * s2qyaw_ (default_captured 1) = 50
  /\ (let this := {| dt_ := 1; s2qx_ := 20; s2qy_ := 20; s2qz_ := 30;
                     s2qyaw_ := 100; s2qr_ := 800;
                     r_x_ := 5 / 100; r_y_ := 5 / 100; r_z_ := 5 / 100;
                     r_yaw_ := 2 / 100 |} in
      mcoeff (u_q this) 4 4 = 5 /\ mcoeff (u_q this) 4 5 = 10
      /\ mcoeff (u_q this) 5 4 = 10
      /\ dpow (dt_ this) 4 / 4 * s2qz_ this = 15 / 2
      /\ dpow (dt_ this) 3 / 2 * s2qz_ this = 15).
Proof. repeat split; cbn; rewrite pow1; lra. Qed.
End Process_noise.

(** * Facts about binary64 comparisons and conversions *)

Section Binary64.
(** Swapping the arguments of a comparison of two floats reverses it. *)
Lemma SFcompare_swap (a b : spec_float) :
  SFcompare b a = option_map CompOpp (SFcompare a b).
Proof.
  destruct a as [sa | sa | | sa ma ea], b as [sb | sb | | sb mb eb];
    try reflexivity;
    try (destruct sa; reflexivity);
    try (destruct sb; reflexivity);
    try (destruct sa, sb; reflexivity).
  cbn. destruct sa, sb; cbn; try reflexivity.
  - rewrite (Z.compare_antisym ea eb).
    destruct (ea ?= eb)%Z; cbn; try reflexivity.
    change (PosDef.Pos.compare_cont Eq mb ma) with (mb ?= ma)%positive.
    change (PosDef.Pos.compare_cont Eq ma mb) with (ma ?= mb)%positive.
    rewrite (Pos.compare_antisym ma mb).
    destruct (ma ?= mb)%positive; reflexivity.
  - rewrite (Z.compare_antisym ea eb).
    destruct (ea ?= eb)%Z; cbn; try reflexivity.
    change (PosDef.Pos.compare_cont Eq mb ma) with (mb ?= ma)%positive.
    change (PosDef.Pos.compare_cont Eq ma mb) with (ma ?= mb)%positive.
    rewrite (Pos.compare_antisym ma mb).
    destruct (ma ?= mb)%positive; reflexivity.
Qed.

(** A float that is no NaN is not mapped to the NaN of the specification. *)
Lemma not_nan_Prim2SF (d : float) :
  is_nan d = false -> Prim2SF d <> S754_nan.
Proof.
  unfold is_nan. rewrite eqb_spec. intros H E. rewrite E in H. discriminate H.
Qed.

(** For a number, "not greater than" is "less than or equal to". *)
Lemma not_ltb_leb (a b : float) :
  is_nan a = false -> is_nan b = false ->
  (a <? b)%float = false -> (b <=? a)%float = true.
Proof.
  intros Ha Hb. apply not_nan_Prim2SF in Ha. apply not_nan_Prim2SF in Hb.
  rewrite ltb_spec, leb_spec. unfold SFltb, SFleb.
  rewrite (SFcompare_swap (Prim2SF a) (Prim2SF b)).
  destruct (SFcompare (Prim2SF a) (Prim2SF b)) as [[ | | ] |] eqn:E;
    cbn; try reflexivity; try discriminate.
  intros _. exfalso.
  destruct (Prim2SF a), (Prim2SF b); try contradiction; cbn in E;
    try discriminate E.
Qed.

Lemma is_nan_abs (d : float) : is_nan (abs d) = is_nan d.
Proof.
  unfold is_nan. rewrite !eqb_spec, abs_spec.
  destruct (Prim2SF d) as [s | s | | s m e];
    try reflexivity; try (destruct s; reflexivity).
  unfold SFabs, SFeqb, SFcompare. rewrite Z.compare_refl.
  change (PosDef.Pos.compare_cont Eq m m) with (m ?= m)%positive.
  rewrite Pos.compare_refl. destruct s; reflexivity.
Qed.

(** A double divided by the zero that [seconds] returns for equal stamps
    is an infinity or a NaN, so that it has no integer part. *)
Lemma truncate_div_zero (d : float) : truncate (d / seconds 0)%float = None.
Proof.
  unfold truncate. rewrite div_spec.
  replace (Prim2SF (seconds 0)) with (S754_zero false) by (vm_compute; reflexivity).
  destruct (Prim2SF d) as [s | s | | s m e]; reflexivity.
Qed.
End Binary64.

(** * Facts about the callback *)

Section Node_facts.
Variable TrackerInternals : Type.
Variable Tracker_init Tracker_update :
  Captured float -> Tracker TrackerInternals -> Armors.t -> Tracker TrackerInternals.
Variable Solver : Type.
Variable Solver_new : Solver.
Variable Solver_solve : Solver -> Target.t -> Time -> Solver * option GimbalCmd.t.

Local Abbreviation Node := (ArmorSolverNode TrackerInternals Solver).
Local Abbreviation callback :=
  (armorsCallback Tracker_init Tracker_update Solver_new Solver_solve).
Local Abbreviation update := (update_tracker Tracker_init Tracker_update).
Local Abbreviation solver_of := (lazy_solver Solver_new).
Local Abbreviation running :=
  (run Tracker_init Tracker_update Solver_new Solver_solve).

(** ** The transform loop *)

(** The loop stops early exactly when the lookup throws for one of the
    armors of the batch. *)
Lemma transform_armors_throws tf hd fr (l : list Armor.t) :
  snd (transform_armors tf hd fr l) = false <->
  Exists (fun a => tf hd (Armor.pose a) fr = None) l.
Proof.
  induction l as [| a l IH]; cbn.
  - split; [discriminate | intro H; inversion H].
  - destruct (tf hd (Armor.pose a) fr) as [p |] eqn:E.
    + destruct (transform_armors tf hd fr l) as [rest ok]. cbn in *.
      rewrite IH. split.
      * intro H. now apply Exists_cons_tl.
      * intro H. inversion H as [? ? H0 | ? ? H0]; subst; [congruence | exact H0].
    + cbn. split; [intros _; now apply Exists_cons_hd | reflexivity].
Qed.

(** The loop keeps the number of armors, whether it stops early or not. *)
Lemma transform_armors_length tf hd fr (l : list Armor.t) :
  List.length (fst (transform_armors tf hd fr l)) = List.length l.
Proof.
  induction l as [| a l IH]; cbn; [reflexivity |].
  destruct (tf hd (Armor.pose a) fr); [| reflexivity].
  destruct (transform_armors tf hd fr l). cbn in *. now rewrite IH.
Qed.

(** ** The two ways through the callback *)

Lemma callback_dropped (this : Node) (tick : Tick) :
  survives this tick = false ->
  callback this tick =
    Returns (set_solver_ this (Some (solver_of this)),
             Armors.set_armors (armors_msg tick) (transformed this tick))
            [FYT_ERROR "Transform error"].
Proof.
  unfold survives, transformed, armorsCallback. cbn.
  destruct (transform_armors _ _ _ _) as [l ok]. cbn.
  intros ->. reflexivity.
Qed.

Lemma callback_processed (this : Node) (tick : Tick) :
  survives this tick = true ->
  callback this tick =
    match update (set_solver_ this (Some (solver_of this)))
                 (filtered this tick) (stamp_of tick) (init_target this tick) with
    | Undefined => Undefined
    | Returns (this1, target_msg) ev_tracker =>
        let '(solver', control_msg, ev_solver) :=
          solve_control Solver_solve (solver_of this) target_msg (now tick) in
        Returns (set_last_time_ (set_solver_ this1 (Some solver')) (stamp_of tick),
                 filtered this tick)
                (ev_tracker ++ [target_pub target_msg] ++ ev_solver
                 ++ [gimbal_pub control_msg]
                 ++ (if debug_mode_ this1
                     then [call_publishMarkers target_msg control_msg] else []))
    end.
Proof.
  unfold survives, filtered, transformed, init_target, stamp_of, armorsCallback.
  cbn.
  destruct (transform_armors _ _ _ _) as [l ok]. cbn.
  intros ->. reflexivity.
Qed.

Lemma update_LOST (this : Node) msg time target_msg :
  tracker_state (tracker_ this) = LOST ->
  update this msg time target_msg =
    Returns (set_tracker_ this (Tracker_init (captured this) (tracker_ this) msg),
             set_tracking target_msg false)
            [call_init (Armors.armors msg)].
Proof. unfold update_tracker. intros ->. reflexivity. Qed.

Lemma update_not_LOST (this : Node) msg time target_msg :
  tracker_state (tracker_ this) <> LOST ->
  update this msg time target_msg =
    let dt := seconds (time - last_time_ this) in
    match compute_lost_thres (lost_time_thres_ this) dt with
    | None => Undefined
    | Some n =>
        let tracker' :=
          Tracker_update (set_dt (captured this) dt)
                         (set_lost_thres (tracker_ this) n) msg in
        Returns (set_tracker_ (set_dt_ this dt) tracker',
                 if State_eqb (tracker_state tracker') DETECTING
                 then set_tracking target_msg false
                 else if State_eqb (tracker_state tracker') TRACKING
                         || State_eqb (tracker_state tracker') TEMP_LOST
                 then fill_target target_msg tracker'
                 else target_msg)
                [call_update dt n (Armors.armors msg);
                 measure_pub (fill_measure tracker')]
    end.
Proof.
  unfold update_tracker. intro H.
  destruct (tracker_state (tracker_ this)); [contradiction | | |]; reflexivity.
Qed.

(** C4: if the frame-transform lookup throws for any armor of the batch,
    the tick is dropped: the callback returns having logged the error
    and nothing else; it has called neither the tracker's init nor its
    update, published no measurement, target or gimbal message, and left
    last_time_ and dt_ as they were, so the tracker is exactly as before
    the tick. *)
Theorem transform_failure_drops_tick (this : Node) (tick : Tick) :
  Exists (fun a => tf2_transform tick (Armors.header (armors_msg tick))
                     (Armor.pose a) (target_frame_ this) = None)
         (Armors.armors (armors_msg tick)) ->
  exists this' msg' trace,
    callback this tick = Returns (this', msg') trace
    /\ trace = [FYT_ERROR "Transform error"]
    /\ tracker_inputs trace = []
    /\ published_measurements trace = []
    /\ published_targets trace = []
    /\ published_gimbals trace = []
    /\ tracker_ this' = tracker_ this
    /\ last_time_ this' = last_time_ this
    /\ captured this' = captured this.
Proof.
  intro H. apply transform_armors_throws in H.
  exists (set_solver_ this (Some (solver_of this))).
  exists (Armors.set_armors (armors_msg tick) (transformed this tick)).
  exists [FYT_ERROR "Transform error"].
  split; [apply callback_dropped; exact H |].
  repeat split.
Qed.

(** ** The shape of a processed tick *)

Lemma solve_control_events solver target_msg now :
  snd (solve_control Solver_solve solver target_msg now) = []
  \/ snd (solve_control Solver_solve solver target_msg now)
     = [FYT_ERROR "Something went wrong in solver!"].
Proof.
  unfold solve_control. destruct (Target.tracking target_msg); [| now left].
  destruct (Solver_solve solver target_msg now) as [s' [cmd |]];
    [now left | now right].
Qed.

(** A tick that got through the transform loop and returned went through
    the tracker, the solver and the three publications, in this order. *)
Lemma callback_shape (this : Node) (tick : Tick) this' msg' trace :
  survives this tick = true ->
  callback this tick = Returns (this', msg') trace ->
  exists this1 target_msg ev_tracker solver' control_msg ev_solver,
    update (set_solver_ this (Some (solver_of this)))
           (filtered this tick) (stamp_of tick) (init_target this tick)
      = Returns (this1, target_msg) ev_tracker
    /\ solve_control Solver_solve (solver_of this) target_msg (now tick)
       = (solver', control_msg, ev_solver)
    /\ this' = set_last_time_ (set_solver_ this1 (Some solver')) (stamp_of tick)
    /\ msg' = filtered this tick
    /\ trace = ev_tracker ++ [target_pub target_msg] ++ ev_solver
               ++ [gimbal_pub control_msg]
               ++ (if debug_mode_ this1
                   then [call_publishMarkers target_msg control_msg] else []).
Proof.
  intros Hs H. rewrite (callback_processed _ _ Hs) in H.
  destruct (update _ _ _ _) as [[this1 target_msg] ev_tracker |];
    [| discriminate H].
  destruct (solve_control _ _ _ _) as [[solver' control_msg] ev_solver] eqn:E.
  inversion H; subst.
  exists this1, target_msg, ev_tracker, solver', control_msg, ev_solver.
  repeat split. exact E.
Qed.

(** The tracker step returns in one of two ways. *)
Lemma update_shape (this : Node) msg time target_msg this1 target_msg1 ev :
  update this msg time target_msg = Returns (this1, target_msg1) ev ->
  (tracker_state (tracker_ this) = LOST
   /\ this1 = set_tracker_ this (Tracker_init (captured this) (tracker_ this) msg)
   /\ target_msg1 = set_tracking target_msg false
   /\ ev = [call_init (Armors.armors msg)])
  \/
  (tracker_state (tracker_ this) <> LOST
   /\ exists n,
       let dt := seconds (time - last_time_ this) in
       let tracker' :=
         Tracker_update (set_dt (captured this) dt)
                        (set_lost_thres (tracker_ this) n) msg in
       compute_lost_thres (lost_time_thres_ this) dt = Some n
       /\ this1 = set_tracker_ (set_dt_ this dt) tracker'
       /\ target_msg1 =
            (if State_eqb (tracker_state tracker') DETECTING
             then set_tracking target_msg false
             else if State_eqb (tracker_state tracker') TRACKING
                     || State_eqb (tracker_state tracker') TEMP_LOST
             then fill_target target_msg tracker'
             else target_msg)
       /\ ev = [call_update dt n (Armors.armors msg);
                measure_pub (fill_measure tracker')]).
Proof.
  intro H.
  destruct (tracker_state (tracker_ this)) eqn:E;
    [ left; rewrite (update_LOST _ _ _ _ E) in H; inversion H; subst;
      repeat split
    | right .. ].
  all: split; [discriminate |];
    rewrite update_not_LOST in H by (rewrite E; discriminate);
    cbv zeta in H;
    destruct (compute_lost_thres _ _) as [n |] eqn:En; [| discriminate H];
    exists n; cbv zeta; inversion H; subst; repeat split; exact En.
Qed.

(** ** Reading a trace *)

Lemma tracker_inputs_app (a b : list Event) :
  tracker_inputs (a ++ b) = tracker_inputs a ++ tracker_inputs b.
Proof.
  induction a as [| e a IH]; [reflexivity |].
  destruct e; cbn; rewrite IH; reflexivity.
Qed.

Lemma published_targets_app (a b : list Event) :
  published_targets (a ++ b) = published_targets a ++ published_targets b.
Proof.
  induction a as [| e a IH]; [reflexivity |].
  destruct e; cbn; rewrite IH; reflexivity.
Qed.

Lemma published_gimbals_app (a b : list Event) :
  published_gimbals (a ++ b) = published_gimbals a ++ published_gimbals b.
Proof.
  induction a as [| e a IH]; [reflexivity |].
  destruct e; cbn; rewrite IH; reflexivity.
Qed.

Lemma published_measurements_app (a b : list Event) :
  published_measurements (a ++ b)
  = published_measurements a ++ published_measurements b.
Proof.
  induction a as [| e a IH]; [reflexivity |].
  destruct e; cbn; rewrite IH; reflexivity.
Qed.

(** What a processed tick hands to the tracker and publishes: the tracker
    step decides the batch and the measurement; one target message and
    one gimbal command follow. *)
Lemma processed_trace (this : Node) (tick : Tick) this' msg' trace :
  survives this tick = true ->
  callback this tick = Returns (this', msg') trace ->
  exists this1 target_msg ev_tracker solver' control_msg ev_solver,
    update (set_solver_ this (Some (solver_of this)))
           (filtered this tick) (stamp_of tick) (init_target this tick)
      = Returns (this1, target_msg) ev_tracker
    /\ solve_control Solver_solve (solver_of this) target_msg (now tick)
       = (solver', control_msg, ev_solver)
    /\ this' = set_last_time_ (set_solver_ this1 (Some solver')) (stamp_of tick)
    /\ msg' = filtered this tick
    /\ tracker_inputs trace = [Armors.armors (filtered this tick)]
    /\ published_targets trace = [target_msg]
    /\ published_gimbals trace = [control_msg]
    /\ published_measurements trace = published_measurements ev_tracker.
Proof.
  intros Hs H.
  destruct (callback_shape _ _ Hs H)
    as (this1 & target_msg & ev & solver' & control_msg & ev_s
        & Hu & Hc & -> & -> & ->).
  exists this1, target_msg, ev, solver', control_msg, ev_s.
  split; [exact Hu |]. split; [exact Hc |].
  split; [reflexivity |]. split; [reflexivity |].
  pose proof (solve_control_events (solver_of this) target_msg (now tick)) as Hev.
  rewrite Hc in Hev. cbn in Hev.
  rewrite !tracker_inputs_app, !published_targets_app,
          !published_gimbals_app, !published_measurements_app.
  destruct (update_shape _ _ _ _ Hu)
    as [(_ & _ & _ & ->) | (_ & n & _ & _ & _ & ->)];
    destruct Hev as [-> | ->]; destruct (debug_mode_ this1);
    repeat split.
Qed.

(** ** What reaches the tracker *)

(** A dropped tick hands nothing to the tracker. *)
Lemma dropped_trace (this : Node) (tick : Tick) this' msg' trace :
  survives this tick = false ->
  callback this tick = Returns (this', msg') trace ->
  trace = [FYT_ERROR "Transform error"]
  /\ this' = set_solver_ this (Some (solver_of this)).
Proof.
  intros Hs H. rewrite (callback_dropped _ _ Hs) in H.
  inversion H; subst. split; reflexivity.
Qed.

(** C5 (as amended): for every incoming frame, the batch that reaches the
    tracker (via init or update) is the transformed batch with the
    observations having |z| > 2 removed and the others kept in order.
    So for every observation that reaches the tracker, "|z| > 2" is
    false, which for a z that is a number means |z| <= 2; every
    observation with |z| > 2 is removed, and every other one reaches the
    tracker, whatever its yaw. *)
Theorem tracker_sees_filtered_batch (this : Node) (tick : Tick) this' msg' trace :
  callback this tick = Returns (this', msg') trace ->
  forall batch, In batch (tracker_inputs trace) ->
    batch = erase_remove_if abnormal (transformed this tick)
    /\ (forall a, In a batch <->
                  In a (transformed this tick)
                  /\ (2 <? abs (Point.z (Pose.position (Armor.pose a))))%float = false)
    /\ (forall a, In a batch ->
                  is_nan (Point.z (Pose.position (Armor.pose a))) = false ->
                  (abs (Point.z (Pose.position (Armor.pose a))) <=? 2)%float = true).
Proof.
  intros H batch Hin.
  destruct (survives this tick) eqn:Hs.
  - destruct (processed_trace _ _ Hs H)
      as (this1 & target_msg & ev & solver' & control_msg & ev_s
          & _ & _ & _ & _ & Hti & _).
    rewrite Hti in Hin. destruct Hin as [<- | []].
    assert (Hiff : forall a,
               In a (Armors.armors (filtered this tick)) <->
               In a (transformed this tick)
               /\ (2 <? abs (Point.z (Pose.position (Armor.pose a))))%float = false).
    { intro a. cbn. unfold erase_remove_if. rewrite filter_In.
      unfold abnormal. rewrite negb_true_iff. reflexivity. }
    split; [reflexivity |]. split; [exact Hiff |].
    intros a Ha Hnan. apply Hiff in Ha. destruct Ha as [_ Ha].
    apply not_ltb_leb; [reflexivity | now rewrite is_nan_abs | exact Ha].
  - destruct (dropped_trace _ _ Hs H) as [-> _]. destruct Hin.
Qed.

(** ** The messages of a processed tick *)

(** C9: on every processed tick, a measurement message is published if
    and only if the tracker was not LOST when the tick began, and then
    exactly one, whose x, y, z and yaw are the four components of the
    measurement vector the tracker holds after its update. *)
Theorem measurement_published_iff_not_LOST (this : Node) (tick : Tick)
    this' msg' trace :
  survives this tick = true ->
  callback this tick = Returns (this', msg') trace ->
  ((exists m, In (measure_pub m) trace) <-> tracker_state (tracker_ this) <> LOST)
  /\ (tracker_state (tracker_ this) = LOST -> published_measurements trace = [])
  /\ (tracker_state (tracker_ this) <> LOST ->
      exists m,
        published_measurements trace = [m]
        /\ Measurement.x m = nth 0 (measurement (tracker_ this')) 0%float
        /\ Measurement.y m = nth 1 (measurement (tracker_ this')) 0%float
        /\ Measurement.z m = nth 2 (measurement (tracker_ this')) 0%float
        /\ Measurement.yaw m = nth 3 (measurement (tracker_ this')) 0%float).
Proof.
  intros Hs H.
  assert (Hin : forall m, In (measure_pub m) trace <-> In m (published_measurements trace)).
  { intro m. clear. induction trace as [| e tr IH]; [reflexivity |].
    destruct e; cbn; rewrite <- IH; split;
      try (intros [E | E]; [discriminate E | exact E]);
      try (intro E; right; exact E).
    - intros [E | E]; [left; congruence | right; exact E].
    - intros [E | E]; [left; congruence | right; exact E]. }
  destruct (processed_trace _ _ Hs H)
    as (this1 & target_msg & ev & solver' & control_msg & ev_s
        & Hu & _ & -> & _ & _ & _ & _ & Hm).
  destruct (update_shape _ _ _ _ Hu)
    as [(Hst & _ & _ & ->) | (Hst & n & _ & -> & _ & ->)];
    cbn in Hst, Hm |- *.
  - split; [| split].
    + split; [| congruence].
      intros [m Hmi]. apply Hin in Hmi. rewrite Hm in Hmi. destruct Hmi.
    + intros _. exact Hm.
    + congruence.
  - split; [| split].
    + split; [intros _; exact Hst |].
      intros _. eexists. apply Hin. rewrite Hm. left. reflexivity.
    + congruence.
    + intros _. eexists. split; [exact Hm |]. repeat split.
Qed.

(** C3: on every processed tick exactly one target snapshot is published.
    Its tracking flag is true if and only if the tracker state after the
    step is TRACKING or TEMP_LOST, and then id = tracked_id,
    armors_num = tracked_armors_num, position = (state(0), state(2),
    state(4)), velocity = (state(1), state(3), state(5)), yaw = state(6),
    v_yaw = state(7), radius_1 = state(8), radius_2 = another_r and
    dz = dz; otherwise tracking is false and every payload field is zero.
    The tracker's init, run on a LOST tracker, leaves it LOST or
    DETECTING, as the specification has it. *)
Theorem target_snapshot (this : Node) (tick : Tick) this' msg' trace :
  (forall c t m, tracker_state t = LOST ->
                 tracker_state (Tracker_init c t m) = LOST
                 \/ tracker_state (Tracker_init c t m) = DETECTING) ->
  survives this tick = true ->
  callback this tick = Returns (this', msg') trace ->
  exists target_msg,
    published_targets trace = [target_msg]
    /\ (Target.tracking target_msg = true <->
        tracker_state (tracker_ this') = TRACKING
        \/ tracker_state (tracker_ this') = TEMP_LOST)
    /\ (Target.tracking target_msg = true ->
        let state := target_state (tracker_ this') in
        Target.id target_msg = tracked_id (tracker_ this')
        /\ Target.armors_num target_msg
           = ArmorsNum_to_int (tracked_armors_num (tracker_ this'))
        /\ Target.position target_msg
           = {| Point.x := nth 0 state 0%float; Point.y := nth 2 state 0%float;
                Point.z := nth 4 state 0%float |}
        /\ Target.velocity target_msg
           = {| Point.x := nth 1 state 0%float; Point.y := nth 3 state 0%float;
                Point.z := nth 5 state 0%float |}
        /\ Target.yaw target_msg = nth 6 state 0%float
        /\ Target.v_yaw target_msg = nth 7 state 0%float
        /\ Target.radius_1 target_msg = nth 8 state 0%float
        /\ Target.radius_2 target_msg = another_r (tracker_ this')
        /\ Target.dz target_msg = dz (tracker_ this'))
    /\ (Target.tracking target_msg = false ->
        Target.id target_msg = EmptyString
        /\ Target.armors_num target_msg = 0%Z
        /\ Target.position target_msg = Point.default
        /\ Target.velocity target_msg = Point.default
        /\ Target.yaw target_msg = 0%float
        /\ Target.v_yaw target_msg = 0%float
        /\ Target.radius_1 target_msg = 0%float
        /\ Target.radius_2 target_msg = 0%float
        /\ Target.dz target_msg = 0%float).
Proof.
  intros Hinit Hs H.
  destruct (processed_trace _ _ Hs H)
    as (this1 & target_msg & ev & solver' & control_msg & ev_s
        & Hu & _ & -> & _ & _ & Ht & _).
  exists target_msg. split; [exact Ht |].
  destruct (update_shape _ _ _ _ Hu)
    as [(Hst & -> & -> & _) | (Hst & n & _ & -> & -> & _)];
    cbn in Hst |- *.
  - destruct (Hinit (captured this) (tracker_ this) (filtered this tick) Hst)
      as [E | E]; rewrite E.
    + repeat split; try discriminate; intros [D | D]; discriminate D.
    + repeat split; try discriminate; intros [D | D]; discriminate D.
  - destruct (tracker_state (Tracker_update _ _ _)); cbn;
      repeat split; try discriminate; auto;
      try (intros [D | D]; discriminate D).
Qed.

(** C7: on every tick that reaches the solver stage, the callback returns
    and has published exactly one gimbal command, after the target
    snapshot.  If the snapshot has tracking = false, or the solver
    throws, the command is the neutral one (yaw_diff = 0,
    pitch_diff = 0, distance = -1, fire_advice = false); when the solver
    throws the callback logs the error and goes on to publish the
    command and to record the frame's stamp in last_time_. *)
Theorem gimbal_command_every_tick (this : Node) (tick : Tick)
    this1 target_msg ev_tracker :
  survives this tick = true ->
  update (set_solver_ this (Some (solver_of this)))
         (filtered this tick) (stamp_of tick) (init_target this tick)
    = Returns (this1, target_msg) ev_tracker ->
  exists this' trace control_msg,
    callback this tick = Returns (this', filtered this tick) trace
    /\ published_targets trace = [target_msg]
    /\ published_gimbals trace = [control_msg]
    /\ last_time_ this' = stamp_of tick
    /\ (Target.tracking target_msg = false -> neutral control_msg)
    /\ (Target.tracking target_msg = true ->
        forall solver' cmd,
          Solver_solve (solver_of this) target_msg (now tick) = (solver', Some cmd) ->
          control_msg = cmd)
    /\ (snd (Solver_solve (solver_of this) target_msg (now tick)) = None ->
        neutral control_msg
        /\ (Target.tracking target_msg = true ->
            exists before after,
              trace = before
                      ++ [FYT_ERROR "Something went wrong in solver!";
                          gimbal_pub control_msg] ++ after)).
Proof.
  intros Hs Hu.
  pose proof (callback_processed _ _ Hs) as Hc. rewrite Hu in Hc.
  destruct (solve_control Solver_solve (solver_of this) target_msg (now tick))
    as [[solver' control_msg] ev_s] eqn:Es.
  cbv iota beta zeta in Hc.
  eexists. eexists. exists control_msg.
  split; [exact Hc |].
  destruct (processed_trace _ _ Hs Hc)
    as (this1' & target_msg' & ev' & solver'' & control_msg' & ev_s'
        & Hu' & Hc' & _ & _ & _ & Ht & Hg & _).
  rewrite Hu in Hu'. inversion Hu'; subst this1' target_msg' ev'.
  rewrite Es in Hc'. inversion Hc'; subst solver'' control_msg' ev_s'.
  split; [exact Ht |]. split; [exact Hg |]. split; [reflexivity |].
  unfold solve_control in Es.
  destruct (Target.tracking target_msg) eqn:Etr.
  - destruct (Solver_solve (solver_of this) target_msg (now tick))
      as [s' [cmd |]] eqn:Esolve; inversion Es; subst; cbn.
    + split; [discriminate |]. split.
      * intros _ s'' cmd' E. inversion E; subst. reflexivity.
      * discriminate.
    + split; [discriminate |]. split.
      * intros _ s'' cmd' E. discriminate E.
      * intros _. split; [repeat split |]. intros _.
        exists (ev_tracker ++ [target_pub target_msg]).
        eexists. rewrite <- app_assoc. cbn. reflexivity.
  - inversion Es; subst. split; [intros _; repeat split |].
    split; [discriminate |].
    intros _. split; [repeat split | discriminate].
Qed.

(** ** Update ticks and the time step *)

(** An update tick whose threshold is defined is processed, whatever the
    time step. *)
Lemma update_tick_processed (this : Node) (tick : Tick) (n : Z) :
  survives this tick = true ->
  tracker_state (tracker_ this) <> LOST ->
  compute_lost_thres (lost_time_thres_ this)
                     (seconds (stamp_of tick - last_time_ this)) = Some n ->
  exists this' trace target_msg control_msg,
    callback this tick = Returns (this', filtered this tick) trace
    /\ tracker_ this'
       = Tracker_update
           (set_dt (captured this) (seconds (stamp_of tick - last_time_ this)))
           (set_lost_thres (tracker_ this) n) (filtered this tick)
    /\ dt_ (captured this') = seconds (stamp_of tick - last_time_ this)
    /\ last_time_ this' = stamp_of tick
    /\ tracker_inputs trace = [Armors.armors (filtered this tick)]
    /\ In (call_update (seconds (stamp_of tick - last_time_ this)) n
                       (Armors.armors (filtered this tick))) trace
    /\ published_measurements trace = [fill_measure (tracker_ this')]
    /\ published_targets trace = [target_msg]
    /\ published_gimbals trace = [control_msg].
Proof.
  intros Hs Hst Hn.
  pose proof (update_not_LOST (set_solver_ this (Some (solver_of this)))
                (filtered this tick) (stamp_of tick) (init_target this tick) Hst)
    as Hu.
  cbv zeta in Hu.
  cbn [set_solver_ last_time_ lost_time_thres_ captured tracker_] in Hu.
  rewrite Hn in Hu.
  pose proof (callback_processed _ _ Hs) as Hc. rewrite Hu in Hc.
  destruct (solve_control Solver_solve (solver_of this) _ (now tick))
    as [[solver' control_msg] ev_s] eqn:Es.
  cbv iota beta zeta in Hc.
  eexists. eexists. eexists. exists control_msg.
  split; [exact Hc |].
  destruct (processed_trace _ _ Hs Hc)
    as (this1 & target_msg & ev & solver'' & control_msg' & ev_s'
        & Hu' & Hc' & _ & _ & Hti & Ht & Hg & Hm).
  rewrite Hu in Hu'. inversion Hu'; subst this1 target_msg ev.
  rewrite Es in Hc'. inversion Hc'; subst solver'' control_msg' ev_s'.
  cbn [tracker_ captured last_time_ set_last_time_ set_solver_ set_tracker_
       set_dt_ set_dt dt_].
  split; [reflexivity |]. split; [reflexivity |]. split; [reflexivity |].
  split; [exact Hti |]. split.
  - apply in_or_app. left. left. reflexivity.
  - split; [exact Hm |]. split; [exact Ht | exact Hg].
Qed.

(** C6 (as amended): a non-LOST tick whose frame timestamp is not later
    than the previous processed frame's (dt <= 0) is not dropped.
    Whenever abs(int(lost_time_thres / dt)) is defined, the tracker is
    updated with that dt and that threshold, and the measurement, the
    target and the gimbal messages are published, as on any other
    update tick. *)
Theorem nonpositive_dt_tick_is_processed (this : Node) (tick : Tick) (n : Z) :
  survives this tick = true ->
  tracker_state (tracker_ this) <> LOST ->
  (seconds (stamp_of tick - last_time_ this) <=? 0)%float = true ->
  compute_lost_thres (lost_time_thres_ this)
                     (seconds (stamp_of tick - last_time_ this)) = Some n ->
  exists this' trace measure_msg target_msg control_msg,
    callback this tick = Returns (this', filtered this tick) trace
    /\ tracker_ this'
       = Tracker_update
           (set_dt (captured this) (seconds (stamp_of tick - last_time_ this)))
           (set_lost_thres (tracker_ this) n) (filtered this tick)
    /\ tracker_inputs trace = [Armors.armors (filtered this tick)]
    /\ published_measurements trace = [measure_msg]
    /\ published_targets trace = [target_msg]
    /\ published_gimbals trace = [control_msg]
    /\ last_time_ this' = stamp_of tick.
Proof.
  intros Hs Hst _ Hn.
  destruct (update_tick_processed _ _ Hs Hst Hn)
    as (this' & trace & target_msg & control_msg
        & Hc & Ht & _ & Hl & Hti & _ & Hm & Htg & Hg).
  exists this', trace, (fill_measure (tracker_ this')), target_msg, control_msg.
  repeat split; assumption.
Qed.

(** On an update tick whose frame carries the stamp of the previous
    processed frame, the time step is zero and the conversion of
    lost_time_thres / dt to [int] has no defined result. *)
Lemma equal_stamps_undefined (this : Node) (tick : Tick) :
  survives this tick = true ->
  tracker_state (tracker_ this) <> LOST ->
  stamp_of tick = last_time_ this ->
  callback this tick = Undefined.
Proof.
  intros Hs Hst Heq.
  rewrite (callback_processed _ _ Hs).
  rewrite update_not_LOST by exact Hst. cbv zeta.
  cbn [set_solver_ last_time_ lost_time_thres_ captured tracker_].
  rewrite Heq, Z.sub_diag.
  unfold compute_lost_thres, static_cast_int.
  rewrite truncate_div_zero. reflexivity.
Qed.

(** ** [last_time_] along a run *)

Lemma survives_frame (a b : Node) (tick : Tick) :
  target_frame_ a = target_frame_ b -> survives a tick = survives b tick.
Proof. unfold survives. intros ->. reflexivity. Qed.

Lemma last_survivor_frame (a b : Node) (ticks : list Tick) :
  target_frame_ a = target_frame_ b ->
  last_survivor a ticks = last_survivor b ticks.
Proof.
  intro H. induction ticks as [| tick rest IH]; [reflexivity |].
  cbn. rewrite IH, (survives_frame _ _ _ H). reflexivity.
Qed.

(** One run of the callback: the target frame stays, [last_time_] takes
    the frame's stamp exactly when the frame got through the transform
    loop, and a dropped frame leaves the tracker alone. *)
Lemma callback_step (this : Node) (tick : Tick) this' msg' trace :
  callback this tick = Returns (this', msg') trace ->
  target_frame_ this' = target_frame_ this
  /\ last_time_ this'
     = (if survives this tick then stamp_of tick else last_time_ this)
  /\ (survives this tick = false -> tracker_ this' = tracker_ this).
Proof.
  intro H. destruct (survives this tick) eqn:Hs.
  - destruct (callback_shape _ _ Hs H)
      as (this1 & target_msg & ev & solver' & control_msg & ev_s
          & Hu & _ & -> & _ & _).
    destruct (update_shape _ _ _ _ Hu)
      as [(_ & -> & _) | (_ & n & _ & -> & _)];
      repeat split; discriminate.
  - destruct (dropped_trace _ _ Hs H) as [_ ->]. repeat split.
Qed.

(** Along a run, [last_time_] is the stamp of the latest frame that was
    not dropped; before any such frame the tracker is the initial one. *)
Lemma run_last_time (this0 : Node) (ticks : list Tick) (this : Node) :
  running this0 ticks = Some this ->
  target_frame_ this = target_frame_ this0
  /\ last_time_ this
     = match last_survivor this0 ticks with
       | Some s => s
       | None => last_time_ this0
       end
  /\ (last_survivor this0 ticks = None -> tracker_ this = tracker_ this0).
Proof.
  revert this0. induction ticks as [| tick rest IH]; intros this0 H.
  - inversion H; subst. repeat split.
  - cbn in H.
    destruct (callback this0 tick) as [[this1 msg1] tr |] eqn:Ec;
      [| discriminate H].
    destruct (callback_step _ _ Ec) as (Hf & Hl & Ht).
    destruct (IH _ H) as (Hf' & Hl' & Ht').
    rewrite (last_survivor_frame this1 this0 rest Hf) in Hl', Ht'.
    cbn. split; [congruence |].
    destruct (last_survivor this0 rest) as [s |].
    + split; [exact Hl' | discriminate].
    + rewrite Hl', Hl. destruct (survives this0 tick).
      * split; [reflexivity | discriminate].
      * split; [reflexivity |]. intros _.
        rewrite (Ht' eq_refl). apply Ht. reflexivity.
Qed.

(** The latest surviving frame of a sequence that ends with a surviving
    frame followed by dropped ones. *)
Lemma last_survivor_then_dropped (this0 : Node) pre tick dropped :
  survives this0 tick = true ->
  Forall (fun t => survives this0 t = false) dropped ->
  last_survivor this0 (pre ++ tick :: dropped) = Some (stamp_of tick).
Proof.
  intros Hs Hd.
  assert (Hnone : last_survivor this0 dropped = None).
  { induction Hd as [| t l Ht _ IHd]; [reflexivity |].
    cbn. rewrite IHd, Ht. reflexivity. }
  induction pre as [| p pre IH]; cbn.
  - rewrite Hnone, Hs. reflexivity.
  - rewrite IH. reflexivity.
Qed.

(** C10: along any run of the callback from a node whose tracker starts
    LOST, (1) a tick sets last_time_ to its frame's stamp if it gets
    through the transform stage, whatever the tracker state, and leaves
    last_time_ alone otherwise; (2) so last_time_ is the stamp of the
    most recent frame that was not dropped; (3) a non-LOST tick always
    has such a frame behind it, and the dt it stores and hands to the
    tracker is the difference between its stamp and that one; (4) after
    an init tick, and however many dropped frames, last_time_ is the init
    frame's stamp. *)
Theorem last_time_follows_processed_frames (this0 : Node) (ticks : list Tick)
    (this : Node) (tick : Tick) this' msg' trace :
  tracker_state (tracker_ this0) = LOST ->
  running this0 ticks = Some this ->
  callback this tick = Returns (this', msg') trace ->
  last_time_ this'
    = (if survives this tick then stamp_of tick else last_time_ this)
  /\ (forall s, last_survivor this0 ticks = Some s -> last_time_ this = s)
  /\ (survives this tick = true ->
      tracker_state (tracker_ this) <> LOST ->
      exists s n,
        last_survivor this0 ticks = Some s
        /\ dt_ (captured this') = seconds (stamp_of tick - s)
        /\ In (call_update (seconds (stamp_of tick - s)) n
                           (Armors.armors (filtered this tick))) trace)
  /\ (forall pre init_tick dropped this_i,
        ticks = pre ++ init_tick :: dropped ->
        running this0 pre = Some this_i ->
        tracker_state (tracker_ this_i) = LOST ->
        survives this_i init_tick = true ->
        Forall (fun t => survives this0 t = false) dropped ->
        last_time_ this = stamp_of init_tick).
Proof.
  intros Hlost Hrun Hc.
  destruct (run_last_time _ _ Hrun) as (Hf & Hl & Ht).
  split; [apply (callback_step _ _ Hc) |].
  split; [intros s Hs; rewrite Hl, Hs; reflexivity |].
  split.
  - intros Hs Hst.
    destruct (last_survivor this0 ticks) as [s |] eqn:Els.
    + destruct (callback_shape _ _ Hs Hc)
        as (this1 & target_msg & ev & solver' & control_msg & ev_s
            & Hu & _ & -> & _ & ->).
      destruct (update_shape _ _ _ _ Hu)
        as [(Hst' & _) | (_ & n & _ & -> & _ & ->)];
        [cbn in Hst'; contradiction |].
      exists s, n. split; [reflexivity |].
      cbn [set_solver_ last_time_ captured set_last_time_ set_tracker_
           set_dt_ set_dt dt_].
      rewrite Hl. split; [reflexivity |].
      apply in_or_app. left. left. reflexivity.
    + exfalso. apply Hst. rewrite (Ht eq_refl). exact Hlost.
  - intros pre init_tick dropped this_i -> Hpre _ Hsi Hd.
    destruct (run_last_time _ _ Hpre) as (Hfi & _).
    rewrite (survives_frame _ _ _ Hfi) in Hsi.
    rewrite Hl, (last_survivor_then_dropped _ pre _ Hsi Hd). reflexivity.
Qed.
End Node_facts.

(** * The callback on concrete frames *)

Section Concrete_frames.
Import Demo.
Local Open Scope Z_scope.

Local Abbreviation stale := (stale_frame 20000000 [a1]).

(** A frame the transform buffer cannot answer, sent to the fresh node. *)
Lemma transform_failure_drops_tick_witness :
  Exists (fun a => tf2_transform stale (Armors.header (armors_msg stale))
                     (Armor.pose a) (target_frame_ node0) = None)
         (Armors.armors (armors_msg stale))
  /\ exists this' msg' trace,
       callback node0 stale = Returns (this', msg') trace
       /\ trace = [FYT_ERROR "Transform error"]
       /\ tracker_ this' = tracker_ node0
       /\ last_time_ this' = last_time_ node0.
Proof.
  assert (H : Exists (fun a => tf2_transform stale (Armors.header (armors_msg stale))
                                 (Armor.pose a) (target_frame_ node0) = None)
                     (Armors.armors (armors_msg stale)))
    by (apply Exists_cons_hd; reflexivity).
  split; [exact H |].
  destruct (transform_failure_drops_tick init update tt solve node0 stale H)
    as (this' & msg' & trace & Hc & Ht & _ & _ & _ & _ & Htr & Hl & _).
  exists this', msg', trace. repeat split; assumption.
Defined.

Local Abbreviation mixed := (frame 10000000 [a_inf; a_nan; a_high; a1]).

(** C5 as stated fails: the fresh node receives a frame with a plate of
    infinite yaw, a plate whose height is NaN, a plate 3 m up and an
    ordinary one.  Only the plate 3 m up is removed; the batch given to
    the tracker's init holds a plate whose yaw is not finite and one for
    which |z| <= 2 is false. *)
Lemma bad_observations_reach_tracker :
  tracker_inputs (events (callback node0 mixed)) = [[a_inf; a_nan; a1]]
  /\ is_finite (Pose.yaw (Armor.pose a_inf)) = false
  /\ (abs (Point.z (Pose.position (Armor.pose a_nan))) <=? 2)%float = false
  /\ ~ (forall batch a,
          In batch (tracker_inputs (events (callback node0 mixed))) ->
          In a batch ->
          (abs (Point.z (Pose.position (Armor.pose a))) <=? 2)%float = true
          /\ is_finite (Pose.yaw (Armor.pose a)) = true).
Proof.
  assert (E : tracker_inputs (events (callback node0 mixed)) = [[a_inf; a_nan; a1]])
    by (vm_compute; reflexivity).
  split; [exact E |]. split; [reflexivity |]. split; [reflexivity |].
  intro H. rewrite E in H.
  destruct (H [a_inf; a_nan; a1] a_inf (or_introl eq_refl) (or_introl eq_refl))
    as [_ Hfin].
  vm_compute in Hfin. discriminate Hfin.
Qed.

(** The same frame, through the amended statement. *)
Lemma tracker_sees_filtered_batch_witness :
  callback node0 mixed
    = Returns (node_of (callback node0 mixed), msg_of (callback node0 mixed))
              (events (callback node0 mixed))
  /\ In [a_inf; a_nan; a1] (tracker_inputs (events (callback node0 mixed)))
  /\ [a_inf; a_nan; a1] = erase_remove_if abnormal (transformed node0 mixed)
  /\ (abs (Point.z (Pose.position (Armor.pose a1))) <=? 2)%float = true.
Proof.
  assert (Hc : callback node0 mixed
               = Returns (node_of (callback node0 mixed), msg_of (callback node0 mixed))
                         (events (callback node0 mixed)))
    by (vm_compute; reflexivity).
  assert (Hin : In [a_inf; a_nan; a1] (tracker_inputs (events (callback node0 mixed))))
    by (vm_compute; left; reflexivity).
  split; [exact Hc |]. split; [exact Hin |].
  destruct (tracker_sees_filtered_batch init update tt solve node0 mixed Hc _ Hin)
    as (Hb & _ & Hle).
  split; [exact Hb |].
  apply Hle; [right; right; left; reflexivity | reflexivity].
Defined.

(** The three nodes used below are reached from the fresh node by runs
    of the callback. *)
Lemma demo_nodes_reached :
  run init update tt solve node0 (steady a1 1) = Some detecting_node
  /\ run init update tt solve node0 (steady a1 6) = Some tracking_node
  /\ run init update tt solve node0 (steady a_origin 6) = Some tracking_origin_node.
Proof. repeat split; vm_compute; reflexivity. Qed.

(** The stand-in init leaves a LOST tracker LOST or DETECTING. *)
Lemma init_LOST_or_DETECTING (c : Captured float) (t : Demo.Tracker) (m : Armors.t) :
  tracker_state t = LOST ->
  tracker_state (init c t m) = LOST \/ tracker_state (init c t m) = DETECTING.
Proof.
  intro H. unfold init. destruct (Armors.armors m); [left; exact H | right; reflexivity].
Defined.

Local Abbreviation seventh := (frame 70000000 [a1]).

(** The seventh frame of a steady stream, sent to the node whose tracker
    is TRACKING: the snapshot has tracking = true and the tracked state. *)
Lemma target_snapshot_witness :
  survives tracking_node seventh = true
  /\ callback tracking_node seventh
     = Returns (node_of (callback tracking_node seventh),
                msg_of (callback tracking_node seventh))
               (events (callback tracking_node seventh))
  /\ exists target_msg,
       published_targets (events (callback tracking_node seventh)) = [target_msg]
       /\ Target.tracking target_msg = true
       /\ Target.id target_msg = "3"%string.
Proof.
  assert (Hs : survives tracking_node seventh = true) by (vm_compute; reflexivity).
  assert (Hc : callback tracking_node seventh
               = Returns (node_of (callback tracking_node seventh),
                          msg_of (callback tracking_node seventh))
                         (events (callback tracking_node seventh)))
    by (vm_compute; reflexivity).
  split; [exact Hs |]. split; [exact Hc |].
  destruct (target_snapshot init update tt solve tracking_node seventh
              init_LOST_or_DETECTING Hs Hc)
    as (target_msg & Ht & Hiff & Hfill & _).
  exists target_msg. split; [exact Ht |].
  assert (Htr : Target.tracking target_msg = true)
    by (apply Hiff; left; vm_compute; reflexivity).
  split; [exact Htr |].
  destruct (Hfill Htr) as (Hid & _). rewrite Hid. vm_compute. reflexivity.
Defined.

(** The same frame: one measurement is published, since the tracker was
    not LOST. *)
Lemma measurement_published_iff_not_LOST_witness :
  survives tracking_node seventh = true
  /\ callback tracking_node seventh
     = Returns (node_of (callback tracking_node seventh),
                msg_of (callback tracking_node seventh))
               (events (callback tracking_node seventh))
  /\ exists m,
       published_measurements (events (callback tracking_node seventh)) = [m]
       /\ Measurement.x m = 1%float.
Proof.
  assert (Hs : survives tracking_node seventh = true) by (vm_compute; reflexivity).
  assert (Hc : callback tracking_node seventh
               = Returns (node_of (callback tracking_node seventh),
                          msg_of (callback tracking_node seventh))
                         (events (callback tracking_node seventh)))
    by (vm_compute; reflexivity).
  split; [exact Hs |]. split; [exact Hc |].
  destruct (measurement_published_iff_not_LOST init update tt solve
              tracking_node seventh Hs Hc)
    as (_ & _ & Hm).
  assert (Hst : tracker_state (tracker_ tracking_node) <> LOST)
    by (vm_compute; discriminate).
  destruct (Hm Hst) as (m & Hp & Hx & _).
  exists m. split; [exact Hp |]. rewrite Hx. vm_compute. reflexivity.
Defined.

Local Abbreviation at_origin := (frame 70000000 [a_origin]).
Local Abbreviation update_at_origin :=
  (update_tracker init update
     (set_solver_ tracking_origin_node (Some (lazy_solver tt tracking_origin_node)))
     (filtered tracking_origin_node at_origin) (stamp_of at_origin)
     (init_target tracking_origin_node at_origin)).

(** A tracked target at the origin, on which the stand-in solver throws:
    the callback returns and the command published is the neutral one. *)
Lemma gimbal_command_every_tick_witness :
  survives tracking_origin_node at_origin = true
  /\ update_at_origin
     = Returns (value (node0, Target.default) update_at_origin)
               (events update_at_origin)
  /\ exists this' trace control_msg,
       callback tracking_origin_node at_origin
         = Returns (this', filtered tracking_origin_node at_origin) trace
       /\ published_gimbals trace = [control_msg]
       /\ neutral control_msg.
Proof.
  assert (Hs : survives tracking_origin_node at_origin = true)
    by (vm_compute; reflexivity).
  assert (Hu : update_at_origin
               = Returns (fst (value (node0, Target.default) update_at_origin),
                          snd (value (node0, Target.default) update_at_origin))
                         (events update_at_origin))
    by (vm_compute; reflexivity).
  split; [exact Hs |]. split; [vm_compute; reflexivity |].
  destruct (gimbal_command_every_tick init update tt solve
              tracking_origin_node at_origin Hs Hu)
    as (this' & trace & control_msg & Hc & _ & Hg & _ & _ & _ & Hthrow).
  exists this', trace, control_msg.
  split; [exact Hc |]. split; [exact Hg |].
  apply Hthrow. vm_compute. reflexivity.
Defined.

Local Abbreviation late := (frame 5000000 [a1]).

(** C6 as stated fails: the node has processed a frame stamped 10 ms and
    its tracker is DETECTING; a frame stamped 5 ms arrives, so that
    dt = -0.005 s.  The callback updates the tracker (its detection
    counter goes from 0 to 1, with lost_thres = 60) and publishes a
    measurement, a target and a gimbal message. *)
Lemma late_frame_is_processed :
  tracker_state (tracker_ detecting_node) = DETECTING
  /\ last_time_ detecting_node = 10000000
  /\ (seconds (stamp_of late - last_time_ detecting_node) <=? 0)%float = true
  /\ tracker_inputs (events (callback detecting_node late)) = [[a1]]
  /\ detect_count (internals (tracker_ detecting_node)) = 0
  /\ detect_count (internals (tracker_ (node_of (callback detecting_node late)))) = 1
  /\ lost_thres (tracker_ (node_of (callback detecting_node late))) = 60
  /\ List.length (published_measurements (events (callback detecting_node late))) = 1%nat
  /\ List.length (published_targets (events (callback detecting_node late))) = 1%nat
  /\ List.length (published_gimbals (events (callback detecting_node late))) = 1%nat.
Proof. vm_compute. repeat split. Qed.

(** The same late frame, through the amended statement. *)
Lemma nonpositive_dt_tick_is_processed_witness :
  survives detecting_node late = true
  /\ tracker_state (tracker_ detecting_node) <> LOST
  /\ (seconds (stamp_of late - last_time_ detecting_node) <=? 0)%float = true
  /\ compute_lost_thres (lost_time_thres_ detecting_node)
       (seconds (stamp_of late - last_time_ detecting_node)) = Some 60
  /\ exists this' trace,
       callback detecting_node late
         = Returns (this', filtered detecting_node late) trace
       /\ tracker_inputs trace = [Armors.armors (filtered detecting_node late)]
       /\ last_time_ this' = stamp_of late.
Proof.
  assert (Hs : survives detecting_node late = true) by (vm_compute; reflexivity).
  assert (Hst : tracker_state (tracker_ detecting_node) <> LOST)
    by (vm_compute; discriminate).
  assert (Hdt : (seconds (stamp_of late - last_time_ detecting_node) <=? 0)%float = true)
    by (vm_compute; reflexivity).
  assert (Hn : compute_lost_thres (lost_time_thres_ detecting_node)
                 (seconds (stamp_of late - last_time_ detecting_node)) = Some 60)
    by (vm_compute; reflexivity).
  split; [exact Hs |]. split; [exact Hst |]. split; [exact Hdt |].
  split; [exact Hn |].
  destruct (nonpositive_dt_tick_is_processed init update tt solve
              detecting_node late Hs Hst Hdt Hn)
    as (this' & trace & measure_msg & target_msg & control_msg
        & Hc & _ & Hti & _ & _ & _ & Hl).
  exists this', trace. repeat split; assumption.
Defined.

Local Abbreviation history := (steady a1 1 ++ [stale]).
Local Abbreviation third := (frame 30000000 [a1]).

(** A run of one frame (the init tick, stamped 10 ms) and one dropped
    frame (stamped 20 ms), then a frame stamped 30 ms: the update tick
    uses dt = 0.02 s, the difference to the init frame. *)
Lemma last_time_follows_processed_frames_witness :
  tracker_state (tracker_ node0) = LOST
  /\ run init update tt solve node0 history = Some (after node0 history)
  /\ callback (after node0 history) third
     = Returns (node_of (callback (after node0 history) third),
                msg_of (callback (after node0 history) third))
               (events (callback (after node0 history) third))
  /\ last_time_ (after node0 history) = 10000000
  /\ last_time_ (node_of (callback (after node0 history) third)) = 30000000
  /\ dt_ (captured (node_of (callback (after node0 history) third)))
     = seconds 20000000.
Proof.
  assert (Hl : tracker_state (tracker_ node0) = LOST) by reflexivity.
  assert (Hr : run init update tt solve node0 history = Some (after node0 history))
    by (vm_compute; reflexivity).
  assert (Hc : callback (after node0 history) third
               = Returns (node_of (callback (after node0 history) third),
                          msg_of (callback (after node0 history) third))
                         (events (callback (after node0 history) third)))
    by (vm_compute; reflexivity).
  split; [exact Hl |]. split; [exact Hr |]. split; [exact Hc |].
  destruct (last_time_follows_processed_frames init update tt solve
              node0 history third Hl Hr Hc)
    as (Hnew & Hold & Hdt & _).
  split; [apply Hold; vm_compute; reflexivity |].
  split; [rewrite Hnew; vm_compute; reflexivity |].
  assert (Hs : survives (after node0 history) third = true)
    by (vm_compute; reflexivity).
  assert (Hst : tracker_state (tracker_ (after node0 history)) <> LOST)
    by (vm_compute; discriminate).
  destruct (Hdt Hs Hst) as (s & n & Hsome & Hd & _).
  rewrite Hd.
  assert (Es : Some s = Some 10000000)
    by (rewrite <- Hsome; vm_compute; reflexivity).
  inversion Es; subst. reflexivity.
Defined.
End Concrete_frames.

(** * Further facts about the closures *)

Section Prediction_facts.
Context {D : Type} {ops : DoubleOps D}.
Local Open Scope double_scope.

Variable this : Captured D.

Lemma set_coeff_length (x : VectorXd D) (i : nat) (v : D) :
  List.length (set_coeff x i v) = List.length x.
Proof.
  revert i. induction x as [| a x IH]; intros [| i]; cbn; try reflexivity.
  now rewrite IH.
Qed.

Lemma coeff_set_coeff_other (x : VectorXd D) (i j : nat) (v : D) :
  i <> j -> coeff (set_coeff x i v) j = coeff x j.
Proof.
  unfold coeff. revert i j.
  induction x as [| a x IH]; intros [| i] [| j] H; cbn; try reflexivity.
  - contradiction.
  - apply IH. intro E. apply H. now rewrite E.
Qed.

(** The process function keeps the dimension of the state and writes
    only the four position components: the velocities, the radius and
    every other coefficient are returned as given. *)
Theorem f_writes_positions_only (x : VectorXd D) :
  List.length (f this x) = List.length x
  /\ (forall i, i <> 0%nat -> i <> 2%nat -> i <> 4%nat -> i <> 6%nat ->
                coeff (f this x) i = coeff x i).
Proof.
  unfold f. split.
  - now rewrite !set_coeff_length.
  - intros i H0 H2 H4 H6.
    rewrite !coeff_set_coeff_other by (intro E; subst; contradiction).
    reflexivity.
Qed.

(** The process noise matrix is symmetric, whatever the arithmetic. *)
Theorem u_q_symmetric (i j : nat) :
  mcoeff (u_q this) i j = mcoeff (u_q this) j i.
Proof.
  unfold mcoeff, u_q.
  do 9 (destruct i as [| i];
        [do 9 (destruct j as [| j]; [reflexivity |]); destruct j; reflexivity |]).
  do 9 (destruct j as [| j]; [destruct i; reflexivity |]).
  destruct i, j; reflexivity.
Qed.
End Prediction_facts.

Section Prediction_reals.
Local Open Scope R_scope.

Variable this : Captured R.

(** The derivative of [t + c] in [t]. *)
Lemma dlim_shift (c a : R) : derivable_pt_lim (fun t => t + c) a 1.
Proof.
  replace 1 with (1 + 0) by lra.
  apply (derivable_pt_lim_plus (fun t => t) (fun _ => c));
    [apply dlim_id | apply dlim_const].
Qed.

(** The derivative of [c + t * k] in [t]. *)
Lemma dlim_slope (c k a : R) : derivable_pt_lim (fun t => c + t * k) a k.
Proof.
  assert (H : derivable_pt_lim (fun t => c + t * k) a (0 + (1 * k + a * 0))).
  { apply (derivable_pt_lim_plus (fun _ => c) (fun t => t * k)).
    - apply dlim_const.
    - apply (derivable_pt_lim_mult (fun t => t) (fun _ => k));
        [apply dlim_id | apply dlim_const]. }
  replace (0 + (1 * k + a * 0)) with k in H by lra. exact H.
Qed.

(** For every 9-dimensional state x, [j_f x] is the Jacobian of the process
    function [f] at x: its entry (i, j) is the derivative of the i-th
    component of [f] in the j-th state component. *)
Theorem j_f_is_jacobian_of_f (x : VectorXd R) :
  List.length x = 9%nat ->
  forall i j, (i < 9)%nat -> (j < 9)%nat ->
    derivable_pt_lim (fun t => coeff (f this (set_coeff x j t)) i)
                     (coeff x j) (mcoeff (j_f this x) i j).
Proof.
  intro Hlen.
  do 9 (destruct x as [| ? x]; [discriminate Hlen |]).
  destruct x; [clear Hlen | discriminate Hlen].
  intros i j Hi Hj.
  destruct i as [| [| [| [| [| [| [| [| [| i]]]]]]]]]; try lia;
    destruct j as [| [| [| [| [| [| [| [| [| j]]]]]]]]]; try lia; cbn;
    first [ apply dlim_const | apply dlim_id | apply dlim_shift
          | apply dlim_slope ].
Qed.


(** Predicting over a time step b and then over a time step a is
    predicting over a + b: the constant-velocity model composes. *)
Theorem f_adds_time_steps (x : VectorXd R) (a b : R) :
  List.length x = 9%nat ->
  f (with_dt this a) (f (with_dt this b) x) = f (with_dt this (a + b)) x.
Proof.
  intro Hlen.
  do 9 (destruct x as [| ? x]; [discriminate Hlen |]).
  destruct x; [clear Hlen | discriminate Hlen].
  cbn. repeat (f_equal; try ring).
Qed.

(** The determinant of the z block of the process noise. *)
Lemma u_q_z_block_det :
  mcoeff (u_q this) 4 4 * mcoeff (u_q this) 5 5
    - mcoeff (u_q this) 4 5 * mcoeff (u_q this) 5 4
  = dt_ this ^ 6 / 4 * s2qx_ this * (s2qz_ this - s2qx_ this).
Proof.
  unfold mcoeff, u_q. cbn [nth].
  unfold dpow, ddiv, dmul, lit, RealOps.
  change (Z.to_nat 4) with 4%nat. change (Z.to_nat 3) with 3%nat.
  change (Z.to_nat 2) with 2%nat.
  field.
Qed.

(** The four 2-by-2 diagonal blocks of the process noise.  The x and y
    blocks have determinant zero for every dt; the z and yaw blocks, which
    mix sigma2_q_x with the axis's own density, have determinants
    dt^6/4 * sx * (sz - sx) and dt^6/4 * (syaw^2 - sx^2). *)
Theorem u_q_block_determinants :
  mcoeff (u_q this) 0 0 * mcoeff (u_q this) 1 1
    - mcoeff (u_q this) 0 1 * mcoeff (u_q this) 1 0 = 0
  /\ mcoeff (u_q this) 2 2 * mcoeff (u_q this) 3 3
    - mcoeff (u_q this) 2 3 * mcoeff (u_q this) 3 2 = 0
  /\ mcoeff (u_q this) 4 4 * mcoeff (u_q this) 5 5
    - mcoeff (u_q this) 4 5 * mcoeff (u_q this) 5 4
    = dt_ this ^ 6 / 4 * s2qx_ this * (s2qz_ this - s2qx_ this)
  /\ mcoeff (u_q this) 6 6 * mcoeff (u_q this) 7 7
    - mcoeff (u_q this) 6 7 * mcoeff (u_q this) 7 6
    = dt_ this ^ 6 / 4 * (s2qyaw_ this ^ 2 - s2qx_ this ^ 2).
Proof.
  split; [| split; [| split; [exact u_q_z_block_det |]]].
  all: unfold mcoeff, u_q; cbn [nth];
    unfold dpow, ddiv, dmul, lit, RealOps;
    change (Z.to_nat 4) with 4%nat; change (Z.to_nat 3) with 3%nat;
    change (Z.to_nat 2) with 2%nat; field.
Qed.

(** When the density configured for z is positive and smaller than the
    one configured for x, and dt is not zero, the z block of the process
    noise has a negative determinant: the matrix is then no covariance. *)
Theorem u_q_z_block_indefinite :
  0 < s2qz_ this -> s2qz_ this < s2qx_ this -> dt_ this <> 0 ->
  mcoeff (u_q this) 4 4 * mcoeff (u_q this) 5 5
    - mcoeff (u_q this) 4 5 * mcoeff (u_q this) 5 4 < 0.
Proof.
  intros Hz Hzx Hdt.
  rewrite u_q_z_block_det.
  assert (Ht : 0 < dt_ this ^ 6).
  { replace (dt_ this ^ 6) with (Rsqr (dt_ this ^ 3)) by (unfold Rsqr; ring).
    apply Rsqr_pos_lt. apply pow_nonzero. exact Hdt. }
  assert (Hx : 0 < s2qx_ this) by lra.
  assert (H1 : 0 < dt_ this ^ 6 / 4 * s2qx_ this).
  { apply Rmult_lt_0_compat; lra. }
  nra.
Qed.
End Prediction_reals.

Section Prediction_witnesses.
Local Open Scope R_scope.

Lemma f_adds_time_steps_witness :
  List.length [1; 2; 0; 0; 1/10; 0; 0; 3; 1/4] = 9%nat
  /\ f (with_dt (default_captured 0) (1/100))
        (f (with_dt (default_captured 0) (2/100)) [1; 2; 0; 0; 1/10; 0; 0; 3; 1/4])
     = f (with_dt (default_captured 0) (1/100 + 2/100))
         [1; 2; 0; 0; 1/10; 0; 0; 3; 1/4].
Proof.
  split; [reflexivity |].
  apply (f_adds_time_steps (default_captured 0)); reflexivity.
Defined.

(** The default densities with the one for z lowered to 10, at dt = 10 ms. *)
Lemma u_q_z_block_indefinite_witness :
  0 < 10 /\ 10 < 20 /\ 1/100 <> 0
  /\ mcoeff (u_q {| dt_ := 1/100; s2qx_ := 20; s2qy_ := 20; s2qz_ := 10;
                    s2qyaw_ := 100; s2qr_ := 800; r_x_ := 5/100;
                    r_y_ := 5/100; r_z_ := 5/100; r_yaw_ := 2/100 |}) 4 4
     * mcoeff (u_q {| dt_ := 1/100; s2qx_ := 20; s2qy_ := 20; s2qz_ := 10;
                      s2qyaw_ := 100; s2qr_ := 800; r_x_ := 5/100;
                      r_y_ := 5/100; r_z_ := 5/100; r_yaw_ := 2/100 |}) 5 5
     - mcoeff (u_q {| dt_ := 1/100; s2qx_ := 20; s2qy_ := 20; s2qz_ := 10;
                      s2qyaw_ := 100; s2qr_ := 800; r_x_ := 5/100;
                      r_y_ := 5/100; r_z_ := 5/100; r_yaw_ := 2/100 |}) 4 5
       * mcoeff (u_q {| dt_ := 1/100; s2qx_ := 20; s2qy_ := 20; s2qz_ := 10;
                        s2qyaw_ := 100; s2qr_ := 800; r_x_ := 5/100;
                        r_y_ := 5/100; r_z_ := 5/100; r_yaw_ := 2/100 |}) 5 4 < 0.
Proof.
  split; [lra |]. split; [lra |]. split; [lra |].
  apply (u_q_z_block_indefinite
           {| dt_ := 1/100; s2qx_ := 20; s2qy_ := 20; s2qz_ := 10;
              s2qyaw_ := 100; s2qr_ := 800; r_x_ := 5/100;
              r_y_ := 5/100; r_z_ := 5/100; r_yaw_ := 2/100 |});
    cbn; lra.
Defined.

Lemma j_f_is_jacobian_of_f_witness :
  List.length [1; 2; 0; 0; 1/10; 0; 0; 3; 1/4] = 9%nat
  /\ derivable_pt_lim
       (fun t => coeff (f (default_captured (1/100))
                          (set_coeff [1; 2; 0; 0; 1/10; 0; 0; 3; 1/4] 1 t)) 0)
       (coeff [1; 2; 0; 0; 1/10; 0; 0; 3; 1/4] 1)
       (mcoeff (j_f (default_captured (1/100))
                    [1; 2; 0; 0; 1/10; 0; 0; 3; 1/4]) 0 1).
Proof.
  split; [reflexivity |].
  apply (j_f_is_jacobian_of_f (default_captured (1/100))
           [1; 2; 0; 0; 1/10; 0; 0; 3; 1/4]); [reflexivity | lia | lia].
Defined.
End Prediction_witnesses.

(** * The measurement noise in binary64, at its edges *)

Section Measurement_noise_binary64.
Variables libm_cos libm_sin : float -> float.
Variable libm_pow : float -> Z -> float.

Local Abbreviation binary64 := (BinaryOps libm_cos libm_sin libm_pow).

(** An absolute value is never less than zero, NaN included. *)
Lemma abs_never_negative (d : float) : (abs d <? 0)%float = false.
Proof.
  rewrite ltb_spec, abs_spec.
  replace (Prim2SF 0) with (S754_zero false) by reflexivity.
  destruct (Prim2SF d) as [s | s | | s m e]; reflexivity.
Qed.

(** A finite factor times a zero has absolute value +0. *)
Lemma abs_mul_zero (r z : float) :
  is_finite r = true -> is_zero z = true -> abs (r * z) = 0%float.
Proof.
  intros Hr Hz. apply Prim2SF_inj. rewrite abs_spec, mul_spec.
  unfold is_zero in Hz. rewrite eqb_spec in Hz.
  replace (Prim2SF zero) with (S754_zero false) in Hz by reflexivity.
  unfold is_finite in Hr. apply negb_true_iff, orb_false_iff in Hr.
  destruct Hr as [Hn Hi].
  unfold is_nan in Hn. rewrite eqb_spec in Hn.
  unfold is_infinity in Hi. rewrite eqb_spec, abs_spec in Hi.
  replace (Prim2SF infinity) with (S754_infinity false) in Hi by reflexivity.
  replace (Prim2SF 0) with (S754_zero false) by reflexivity.
  destruct (Prim2SF z) as [sz | sz | | sz mz ez];
    try discriminate Hz; try (destruct sz; discriminate Hz).
  destruct (Prim2SF r) as [sr | sr | | sr mr er];
    try discriminate Hn; try (destruct sr; discriminate Hi); reflexivity.
Qed.

(** In binary64, the x, y and z variances that [u_r] returns are never
    negative, and each is exactly zero when its measurement component is
    a zero and its factor is finite: the matrix is then singular. *)
Theorem u_r_variances_at_zero (this : Captured float) (z : VectorXd float) :
  (forall i, (i < 3)%nat ->
             (dcoeff (ops := binary64) (u_r (ops := binary64) this z) i i <? 0)%float
             = false)
  /\ (is_finite (r_x_ this) = true -> is_zero (coeff (ops := binary64) z 0) = true ->
      dcoeff (ops := binary64) (u_r (ops := binary64) this z) 0 0 = 0%float)
  /\ (is_finite (r_y_ this) = true -> is_zero (coeff (ops := binary64) z 1) = true ->
      dcoeff (ops := binary64) (u_r (ops := binary64) this z) 1 1 = 0%float)
  /\ (is_finite (r_z_ this) = true -> is_zero (coeff (ops := binary64) z 2) = true ->
      dcoeff (ops := binary64) (u_r (ops := binary64) this z) 2 2 = 0%float).
Proof.
  split.
  - intros i Hi. destruct i as [| [| [| i]]]; try lia; cbn; apply abs_never_negative.
  - repeat split; intros Hr Hz; cbn; apply abs_mul_zero; assumption.
Qed.
End Measurement_noise_binary64.

Section Measurement_noise_witness.
(** A plate straight ahead: y = 0. *)
Lemma u_r_variances_at_zero_witness :
  is_finite 0.05 = true
  /\ is_zero (coeff (ops := BinaryOps DemoMarkers.cos0 DemoMarkers.sin0 (fun d _ => d))
                    [1; 0; 0.1; 0]%float 1) = true
  /\ dcoeff (ops := BinaryOps DemoMarkers.cos0 DemoMarkers.sin0 (fun d _ => d))
       (u_r (ops := BinaryOps DemoMarkers.cos0 DemoMarkers.sin0 (fun d _ => d))
            (captured Demo.node0) [1; 0; 0.1; 0]%float) 1 1 = 0%float.
Proof.
  split; [reflexivity |]. split; [reflexivity |].
  apply (u_r_variances_at_zero DemoMarkers.cos0 DemoMarkers.sin0 (fun d _ => d)
           (captured Demo.node0) [1; 0; 0.1; 0]%float); reflexivity.
Defined.
End Measurement_noise_witness.

(** * Further facts about the transform loop *)

Section Transform_facts.
Variable tf : Header.t -> Pose.t -> string -> option Pose.t.
Variable hd : Header.t.
Variable fr : string.

(** Whether it runs to its end or stops at a throw, the loop returns as
    many armors as it was given, with the same numbers and types in the
    same order: it writes poses only. *)
Theorem transform_writes_poses_only (l : list Armor.t) :
  map Armor.number (fst (transform_armors tf hd fr l)) = map Armor.number l
  /\ map Armor.type (fst (transform_armors tf hd fr l)) = map Armor.type l
  /\ List.length (fst (transform_armors tf hd fr l)) = List.length l.
Proof.
  induction l as [| a l (IHn & IHt & IHl)]; cbn; [repeat split |].
  destruct (tf hd (Armor.pose a) fr) as [p |]; [| repeat split].
  destruct (transform_armors tf hd fr l) as [rest ok]. cbn in *.
  rewrite IHn, IHt, IHl. repeat split.
Qed.

(** When every lookup succeeds, each armor gets the pose the buffer
    returned for it. *)
Theorem transform_all_found (l : list Armor.t) :
  Forall (fun a => tf hd (Armor.pose a) fr <> None) l ->
  transform_armors tf hd fr l = (map (transform_one tf hd fr) l, true).
Proof.
  induction 1 as [| a l Ha _ IH]; cbn; [reflexivity |].
  unfold transform_one at 1.
  destruct (tf hd (Armor.pose a) fr) as [p |]; [| contradiction].
  rewrite IH. reflexivity.
Qed.

(** When a lookup throws, the armors before it have already been
    overwritten in the message, and that armor and the ones after it are
    as received. *)
Theorem transform_stops_at_first_throw (before after : list Armor.t) (a : Armor.t) :
  Forall (fun b => tf hd (Armor.pose b) fr <> None) before ->
  tf hd (Armor.pose a) fr = None ->
  transform_armors tf hd fr (before ++ a :: after)
  = (map (transform_one tf hd fr) before ++ a :: after, false).
Proof.
  intros Hb Ha. induction Hb as [| b l Hbb _ IH]; cbn.
  - rewrite Ha. reflexivity.
  - unfold transform_one at 1.
    destruct (tf hd (Armor.pose b) fr) as [p |]; [| contradiction].
    rewrite IH. reflexivity.
Qed.
End Transform_facts.

Section Transform_witnesses.
Import Demo.
Local Open Scope Z_scope.

(** A buffer that can place plates ahead of the robot only. *)
Local Abbreviation ahead_only :=
  (fun (_ : Header.t) (p : Pose.t) (_ : string) =>
     if (0 <? Point.x (Pose.position p))%float then Some p else None).

Lemma transform_all_found_witness :
  Forall (fun a => ahead_only Header.default (Armor.pose a) "odom"%string <> None)
         [a1; a_high]
  /\ transform_armors ahead_only Header.default "odom" [a1; a_high]
     = ([a1; a_high], true).
Proof.
  assert (H : Forall (fun a => ahead_only Header.default (Armor.pose a) "odom"%string
                               <> None) [a1; a_high])
    by (repeat constructor; discriminate).
  split; [exact H |].
  exact (transform_all_found ahead_only Header.default "odom" H).
Defined.

Lemma transform_stops_at_first_throw_witness :
  Forall (fun a => ahead_only Header.default (Armor.pose a) "odom"%string <> None) [a1]
  /\ ahead_only Header.default (Armor.pose a_origin) "odom"%string = None
  /\ transform_armors ahead_only Header.default "odom" ([a1] ++ a_origin :: [a_high])
     = ([a1; a_origin; a_high], false).
Proof.
  assert (H : Forall (fun a => ahead_only Header.default (Armor.pose a) "odom"%string
                               <> None) [a1])
    by (repeat constructor; discriminate).
  split; [exact H |]. split; [reflexivity |].
  exact (transform_stops_at_first_throw ahead_only Header.default "odom"
           [a_high] a_origin H eq_refl).
Defined.
End Transform_witnesses.

(** * Further facts about the callback *)

Section Callback_facts.
Variable TrackerInternals : Type.
Variable Tracker_init Tracker_update :
  Captured float -> Tracker TrackerInternals -> Armors.t -> Tracker TrackerInternals.
Variable Solver : Type.
Variable Solver_new : Solver.
Variable Solver_solve : Solver -> Target.t -> Time -> Solver * option GimbalCmd.t.

Local Abbreviation Node := (ArmorSolverNode TrackerInternals Solver).
Local Abbreviation callback :=
  (armorsCallback Tracker_init Tracker_update Solver_new Solver_solve).
Local Abbreviation update := (update_tracker Tracker_init Tracker_update).
Local Abbreviation solver_of := (lazy_solver Solver_new).
Local Abbreviation running :=
  (run Tracker_init Tracker_update Solver_new Solver_solve).

(** A frame without armors is never dropped, whatever the transform buffer
    holds: no lookup is made, the tracker is run on the empty batch and
    last_time_ takes the frame's stamp. *)
Theorem empty_frame_is_processed (this : Node) (tick : Tick) :
  Armors.armors (armors_msg tick) = [] ->
  survives this tick = true
  /\ forall this' msg' trace,
       callback this tick = Returns (this', msg') trace ->
       tracker_inputs trace = [[]] /\ last_time_ this' = stamp_of tick.
Proof.
  intro He.
  assert (Hs : survives this tick = true).
  { unfold survives. rewrite He. reflexivity. }
  split; [exact Hs |].
  intros this' msg' trace H.
  destruct (processed_trace _ _ _ _ _ _ Hs H)
    as (this1 & target_msg & ev & solver' & control_msg & ev_s
        & _ & _ & _ & _ & Hti & _).
  destruct (callback_step _ _ _ _ _ _ H) as (_ & Hl & _).
  rewrite Hs in Hl. split; [| exact Hl].
  rewrite Hti. unfold filtered, transformed. rewrite He. reflexivity.
Qed.

(** Every target message is published with the frame's stamp and the
    target frame in its header, tracking or not. *)
Theorem target_header_is_frame_header (this : Node) (tick : Tick)
    this' msg' trace (t : Target.t) :
  survives this tick = true ->
  callback this tick = Returns (this', msg') trace ->
  In t (published_targets trace) ->
  Target.header t
  = {| Header.stamp := stamp_of tick; Header.frame_id := target_frame_ this |}.
Proof.
  intros Hs H Hin.
  destruct (processed_trace _ _ _ _ _ _ Hs H)
    as (this1 & target_msg & ev & solver' & control_msg & ev_s
        & Hu & _ & _ & _ & _ & Ht & _).
  rewrite Ht in Hin. destruct Hin as [<- | []].
  destruct (update_shape _ _ _ _ _ _ Hu)
    as [(_ & _ & -> & _) | (_ & n & _ & _ & -> & _)]; [reflexivity |].
  destruct (State_eqb _ DETECTING); [reflexivity |].
  destruct (State_eqb _ TRACKING || State_eqb _ TEMP_LOST); reflexivity.
Qed.

(** The solver is called only for a snapshot with tracking = true.  When
    the published snapshot has tracking = false, the solver is left as it
    was after its lazy construction, no solver error is logged, and the
    command is the neutral one built on a default message. *)
Theorem solver_untouched_unless_tracking (this : Node) (tick : Tick)
    this' msg' trace (t : Target.t) :
  survives this tick = true ->
  callback this tick = Returns (this', msg') trace ->
  In t (published_targets trace) ->
  Target.tracking t = false ->
  solver_ this' = Some (solver_of this)
  /\ ~ In (FYT_ERROR "Something went wrong in solver!") trace
  /\ published_gimbals trace = [neutral_cmd GimbalCmd.default].
Proof.
  intros Hs H Hin Htr.
  destruct (callback_shape _ _ _ _ _ _ Hs H)
    as (this1 & target_msg & ev & solver' & control_msg & ev_s
        & Hu & Hc & -> & _ & Htrace).
  destruct (processed_trace _ _ _ _ _ _ Hs H)
    as (this1' & target_msg' & ev' & solver'' & control_msg' & ev_s'
        & Hu' & Hc' & _ & _ & _ & Ht & Hg & _).
  rewrite Hu in Hu'. inversion Hu'; subst this1' target_msg' ev'.
  rewrite Hc in Hc'. inversion Hc'; subst solver'' control_msg' ev_s'.
  rewrite Ht in Hin. destruct Hin as [<- | []].
  unfold solve_control in Hc. rewrite Htr in Hc. inversion Hc; subst.
  split; [reflexivity |]. split; [| exact Hg].
  destruct (update_shape _ _ _ _ _ _ Hu)
    as [(_ & _ & _ & ->) | (_ & n & _ & _ & _ & ->)];
    destruct (debug_mode_ this1); cbn;
    intros Hf; repeat (destruct Hf as [Hf | Hf]; [discriminate Hf |]);
    exact Hf.
Qed.



(** A LOST tick that gets through the transform loop always returns,
    whatever the stamps: it runs the tracker's init on the filtered batch,
    publishes a target with tracking = false and the neutral command,
    never calls the solver, and leaves dt_ and the rest of the captured
    members as they were. *)
Theorem lost_tick_always_returns (this : Node) (tick : Tick) :
  survives this tick = true ->
  tracker_state (tracker_ this) = LOST ->
  exists this',
    callback this tick
    = Returns (this', filtered this tick)
        ([call_init (Armors.armors (filtered this tick));
          target_pub (set_tracking (init_target this tick) false);
          gimbal_pub (neutral_cmd GimbalCmd.default)]
         ++ (if debug_mode_ this
             then [call_publishMarkers (set_tracking (init_target this tick) false)
                                       (neutral_cmd GimbalCmd.default)]
             else []))
    /\ tracker_ this'
       = Tracker_init (captured this) (tracker_ this) (filtered this tick)
    /\ captured this' = captured this
    /\ solver_ this' = Some (solver_of this)
    /\ last_time_ this' = stamp_of tick.
Proof.
  intros Hs Hst.
  rewrite (callback_processed _ _ _ _ _ _ Hs).
  rewrite update_LOST by exact Hst.
  eexists. split; [reflexivity |]. repeat split.
Qed.

(** The events of a tick that gets through the transform loop come in a
    fixed order: the tracker call, the measurement on an update tick, the
    target, the solver error if the solver threw, the gimbal command, and,
    exactly when debug_mode_ is set, the call of publishMarkers with the
    target and the command just published. *)
Theorem processed_tick_event_order (this : Node) (tick : Tick) this' msg' trace :
  survives this tick = true ->
  callback this tick = Returns (this', msg') trace ->
  exists tracker_events solver_events target_msg control_msg,
    trace = tracker_events ++ [target_pub target_msg] ++ solver_events
            ++ [gimbal_pub control_msg]
            ++ (if debug_mode_ this
                then [call_publishMarkers target_msg control_msg] else [])
    /\ (tracker_events = [call_init (Armors.armors (filtered this tick))]
        \/ exists dt n m,
             tracker_events
             = [call_update dt n (Armors.armors (filtered this tick)); measure_pub m])
    /\ (solver_events = []
        \/ solver_events = [FYT_ERROR "Something went wrong in solver!"]).
Proof.
  intros Hs H.
  destruct (callback_shape _ _ _ _ _ _ Hs H)
    as (this1 & target_msg & ev & solver' & control_msg & ev_s
        & Hu & Hc & _ & _ & ->).
  pose proof (solve_control_events Solver_solve (solver_of this) target_msg
                (now tick)) as Hev.
  rewrite Hc in Hev. cbn in Hev.
  exists ev, ev_s, target_msg, control_msg.
  destruct (update_shape _ _ _ _ _ _ Hu)
    as [(_ & -> & _ & ->) | (_ & n & _ & -> & _ & ->)]; cbn.
  - split; [reflexivity |]. split; [left; reflexivity | exact Hev].
  - split; [reflexivity |]. split; [| exact Hev].
    right. eexists. eexists. eexists. reflexivity.
Qed.

(** One run of the callback changes no parameter of the node: debug_mode_,
    lost_time_thres_, target_frame_ and the nine ekf parameters are those
    it started with.  Of the captured members only dt_ is written. *)
Lemma callback_keeps_configuration (this : Node) (tick : Tick) this' msg' trace :
  callback this tick = Returns (this', msg') trace ->
  debug_mode_ this' = debug_mode_ this
  /\ lost_time_thres_ this' = lost_time_thres_ this
  /\ target_frame_ this' = target_frame_ this
  /\ set_dt (captured this') 0 = set_dt (captured this) 0.
Proof.
  intro H. destruct (survives this tick) eqn:Hs.
  - destruct (callback_shape _ _ _ _ _ _ Hs H)
      as (this1 & target_msg & ev & solver' & control_msg & ev_s
          & Hu & _ & -> & _ & _).
    destruct (update_shape _ _ _ _ _ _ Hu)
      as [(_ & -> & _) | (_ & n & _ & -> & _)]; repeat split.
  - destruct (dropped_trace _ _ _ _ _ _ Hs H) as [_ ->]. repeat split.
Qed.

(** Along any run of the callback the configuration of the node stays as
    the constructor left it: debug_mode_, lost_time_thres_, target_frame_,
    the five process densities and the four measurement factors. *)
Theorem configuration_never_changes (this0 : Node) (ticks : list Tick) (this : Node) :
  running this0 ticks = Some this ->
  debug_mode_ this = debug_mode_ this0
  /\ lost_time_thres_ this = lost_time_thres_ this0
  /\ target_frame_ this = target_frame_ this0
  /\ s2qx_ (captured this) = s2qx_ (captured this0)
  /\ s2qy_ (captured this) = s2qy_ (captured this0)
  /\ s2qz_ (captured this) = s2qz_ (captured this0)
  /\ s2qyaw_ (captured this) = s2qyaw_ (captured this0)
  /\ s2qr_ (captured this) = s2qr_ (captured this0)
  /\ r_x_ (captured this) = r_x_ (captured this0)
  /\ r_y_ (captured this) = r_y_ (captured this0)
  /\ r_z_ (captured this) = r_z_ (captured this0)
  /\ r_yaw_ (captured this) = r_yaw_ (captured this0).
Proof.
  revert this0. induction ticks as [| tick rest IH]; intros this0 H.
  - inversion H; subst. repeat split.
  - cbn in H.
    destruct (callback this0 tick) as [[this1 msg1] tr |] eqn:Ec;
      [| discriminate H].
    destruct (callback_keeps_configuration _ _ Ec) as (Hd & Hl & Hf & Hc).
    destruct (IH _ H) as (Hd' & Hl' & Hf' & H1 & H2 & H3 & H4 & H5 & H6 & H7 & H8 & H9).
    rewrite Hd', Hl', Hf', H1, H2, H3, H4, H5, H6, H7, H8, H9.
    split; [exact Hd |]. split; [exact Hl |]. split; [exact Hf |].
    repeat split.
    + exact (f_equal (@s2qx_ float) Hc).
    + exact (f_equal (@s2qy_ float) Hc).
    + exact (f_equal (@s2qz_ float) Hc).
    + exact (f_equal (@s2qyaw_ float) Hc).
    + exact (f_equal (@s2qr_ float) Hc).
    + exact (f_equal (@r_x_ float) Hc).
    + exact (f_equal (@r_y_ float) Hc).
    + exact (f_equal (@r_z_ float) Hc).
    + exact (f_equal (@r_yaw_ float) Hc).
Qed.

(** A dropped frame leaves no trace in what follows: the callback run on
    any later frame behaves exactly as if the dropped frame had never
    arrived, and so does any run. *)
Theorem dropped_frame_is_invisible (this : Node) (dropped : Tick) this1 msg1 trace1 :
  survives this dropped = false ->
  callback this dropped = Returns (this1, msg1) trace1 ->
  (forall tick, callback this1 tick = callback this tick)
  /\ (forall rest, rest <> [] -> running this (dropped :: rest) = running this rest).
Proof.
  intros Hs H.
  destruct (dropped_trace _ _ _ _ _ _ Hs H) as [_ ->].
  assert (Hc : forall tick,
             callback (set_solver_ this (Some (solver_of this))) tick
             = callback this tick) by (intro tick; reflexivity).
  split; [exact Hc |].
  intros rest Hne. cbn. rewrite H.
  destruct rest as [| tick rest]; [contradiction |].
  cbn. rewrite Hc. reflexivity.
Qed.
End Callback_facts.

Section Callback_witnesses.
Import Demo.
Local Open Scope Z_scope.

Local Abbreviation empty_stale := (stale_frame 20000000 []).
Local Abbreviation first := (frame 10000000 [a1]).
Local Abbreviation seventh := (frame 70000000 [a1]).
Local Abbreviation repeated := (frame 10000000 [a1]).
Local Abbreviation stale := (stale_frame 20000000 [a1]).

Local Ltac computed := vm_compute; reflexivity.

(** An empty frame for which the buffer has no transform. *)
Lemma empty_frame_is_processed_witness :
  Armors.armors (armors_msg empty_stale) = []
  /\ survives node0 empty_stale = true
  /\ last_time_ (node_of (callback node0 empty_stale)) = 20000000.
Proof.
  assert (He : Armors.armors (armors_msg empty_stale) = []) by reflexivity.
  split; [exact He |].
  destruct (empty_frame_is_processed init update tt solve node0 empty_stale He)
    as (Hs & Hl).
  split; [exact Hs |].
  assert (Hc : callback node0 empty_stale
               = Returns (node_of (callback node0 empty_stale),
                          msg_of (callback node0 empty_stale))
                         (events (callback node0 empty_stale))) by computed.
  destruct (Hl _ _ _ Hc) as (_ & ->). reflexivity.
Defined.

Lemma target_header_is_frame_header_witness :
  survives tracking_node seventh = true
  /\ callback tracking_node seventh
     = Returns (node_of (callback tracking_node seventh),
                msg_of (callback tracking_node seventh))
               (events (callback tracking_node seventh))
  /\ Forall (fun t => Target.header t
                      = {| Header.stamp := 70000000; Header.frame_id := "odom" |})
            (published_targets (events (callback tracking_node seventh))).
Proof.
  assert (Hs : survives tracking_node seventh = true) by computed.
  assert (Hc : callback tracking_node seventh
               = Returns (node_of (callback tracking_node seventh),
                          msg_of (callback tracking_node seventh))
                         (events (callback tracking_node seventh))) by computed.
  split; [exact Hs |]. split; [exact Hc |].
  apply Forall_forall. intros t Hin.
  exact (target_header_is_frame_header init update tt solve tracking_node
           seventh t Hs Hc Hin).
Defined.

(** The first frame ever: the tracker is LOST and the snapshot has
    tracking = false. *)
Lemma solver_untouched_unless_tracking_witness :
  survives node0 first = true
  /\ callback node0 first
     = Returns (node_of (callback node0 first), msg_of (callback node0 first))
               (events (callback node0 first))
  /\ In (set_tracking (init_target node0 first) false)
        (published_targets (events (callback node0 first)))
  /\ Target.tracking (set_tracking (init_target node0 first) false) = false
  /\ solver_ (node_of (callback node0 first)) = Some tt.
Proof.
  assert (Hs : survives node0 first = true) by computed.
  assert (Hc : callback node0 first
               = Returns (node_of (callback node0 first), msg_of (callback node0 first))
                         (events (callback node0 first))) by computed.
  assert (Hin : In (set_tracking (init_target node0 first) false)
                   (published_targets (events (callback node0 first))))
    by (vm_compute; left; reflexivity).
  split; [exact Hs |]. split; [exact Hc |]. split; [exact Hin |].
  split; [reflexivity |].
  destruct (solver_untouched_unless_tracking init update tt solve node0 first
              _ Hs Hc Hin eq_refl) as (-> & _).
  reflexivity.
Defined.


(** A LOST tick whose frame carries the stamp 0 that last_time_ holds. *)
Lemma lost_tick_always_returns_witness :
  survives node0 (frame 0 [a1]) = true
  /\ tracker_state (tracker_ node0) = LOST
  /\ exists this',
       callback node0 (frame 0 [a1])
       = Returns (this', filtered node0 (frame 0 [a1]))
           ([call_init (Armors.armors (filtered node0 (frame 0 [a1])));
             target_pub (set_tracking (init_target node0 (frame 0 [a1])) false);
             gimbal_pub (neutral_cmd GimbalCmd.default)]
            ++ (if debug_mode_ node0
                then [call_publishMarkers
                        (set_tracking (init_target node0 (frame 0 [a1])) false)
                        (neutral_cmd GimbalCmd.default)]
                else []))
       /\ captured this' = captured node0.
Proof.
  assert (Hs : survives node0 (frame 0 [a1]) = true) by computed.
  split; [exact Hs |]. split; [reflexivity |].
  destruct (lost_tick_always_returns init update tt solve node0 (frame 0 [a1])
              Hs eq_refl) as (this' & Hc & _ & Hcap & _).
  exists this'. split; [exact Hc | exact Hcap].
Defined.

Lemma processed_tick_event_order_witness :
  survives tracking_node seventh = true
  /\ callback tracking_node seventh
     = Returns (node_of (callback tracking_node seventh),
                msg_of (callback tracking_node seventh))
               (events (callback tracking_node seventh))
  /\ exists tracker_events solver_events target_msg control_msg,
       events (callback tracking_node seventh)
       = tracker_events ++ [target_pub target_msg] ++ solver_events
         ++ [gimbal_pub control_msg]
         ++ (if debug_mode_ tracking_node
             then [call_publishMarkers target_msg control_msg] else []).
Proof.
  assert (Hs : survives tracking_node seventh = true) by computed.
  assert (Hc : callback tracking_node seventh
               = Returns (node_of (callback tracking_node seventh),
                          msg_of (callback tracking_node seventh))
                         (events (callback tracking_node seventh))) by computed.
  split; [exact Hs |]. split; [exact Hc |].
  destruct (processed_tick_event_order init update tt solve tracking_node seventh
              Hs Hc) as (te & se & t & g & Htr & _).
  exists te, se, t, g. exact Htr.
Defined.

Lemma configuration_never_changes_witness :
  run init update tt solve node0 (steady a1 6) = Some tracking_node
  /\ lost_time_thres_ tracking_node = lost_time_thres_ node0
  /\ s2qyaw_ (captured tracking_node) = s2qyaw_ (captured node0).
Proof.
  assert (Hr : run init update tt solve node0 (steady a1 6) = Some tracking_node)
    by computed.
  split; [exact Hr |].
  destruct (configuration_never_changes init update tt solve node0 (steady a1 6) Hr)
    as (_ & Hl & _ & _ & _ & _ & Hy & _).
  split; [exact Hl | exact Hy].
Defined.

Lemma dropped_frame_is_invisible_witness :
  survives detecting_node stale = false
  /\ callback detecting_node stale
     = Returns (node_of (callback detecting_node stale),
                msg_of (callback detecting_node stale))
               (events (callback detecting_node stale))
  /\ callback (node_of (callback detecting_node stale)) seventh
     = callback detecting_node seventh.
Proof.
  assert (Hs : survives detecting_node stale = false) by computed.
  assert (Hc : callback detecting_node stale
               = Returns (node_of (callback detecting_node stale),
                          msg_of (callback detecting_node stale))
                         (events (callback detecting_node stale))) by computed.
  split; [exact Hs |]. split; [exact Hc |].
  destruct (dropped_frame_is_invisible init update tt solve detecting_node stale
              Hs Hc) as (Hinv & _).
  apply Hinv.
Defined.

(** The frame stamped 10 ms arrives a second time. *)
Lemma equal_stamps_undefined_witness :
  survives detecting_node repeated = true
  /\ tracker_state (tracker_ detecting_node) <> LOST
  /\ stamp_of repeated = last_time_ detecting_node
  /\ callback detecting_node repeated = Undefined.
Proof.
  assert (Hs : survives detecting_node repeated = true) by computed.
  assert (Hst : tracker_state (tracker_ detecting_node) <> LOST)
    by (vm_compute; discriminate).
  assert (He : stamp_of repeated = last_time_ detecting_node) by reflexivity.
  split; [exact Hs |]. split; [exact Hst |]. split; [exact He |].
  exact (equal_stamps_undefined init update tt solve detecting_node repeated
           Hs Hst He).
Defined.
End Callback_witnesses.

(** * Facts about publishMarkers *)

Section Marker_facts.
Variables libm_cos libm_sin : float -> float.
Variable getTrajectory : float -> float -> list (float * float).

Local Abbreviation publish := (publishMarkers libm_cos libm_sin getTrajectory).
Local Abbreviation publish_calls := (publish_all libm_cos libm_sin getTrajectory).
Local Open Scope float_scope.

Lemma draw_armors_length todo i flag a_n yaw r1 r2 xc yc za dz :
  List.length (draw_armors libm_cos libm_sin todo i flag a_n yaw r1 r2 xc yc za dz)
  = todo.
Proof.
  revert i flag. induction todo as [| todo IH]; intros i flag; cbn;
    [reflexivity | now rewrite IH].
Qed.

(** One call keeps the namespace, the type, the scale and the alpha
    channel of each of the six markers. *)
Lemma publish_keeps_styles ms fr now t g :
  map Marker.ns (marker_array (fst (publish ms fr now t g)))
  = map Marker.ns (marker_array ms)
  /\ map Marker.type (marker_array (fst (publish ms fr now t g)))
     = map Marker.type (marker_array ms)
  /\ map Marker.scale (marker_array (fst (publish ms fr now t g)))
     = map Marker.scale (marker_array ms)
  /\ map (fun m => Marker.a (Marker.color m)) (marker_array (fst (publish ms fr now t g)))
     = map (fun m => Marker.a (Marker.color m)) (marker_array ms).
Proof.
  unfold publishMarkers.
  destruct (Target.tracking t); [destruct (GimbalCmd.fire_advice g) |];
    repeat split.
Qed.

(** However many times publishMarkers has run and on whatever messages,
    the array it publishes holds six markers with the namespaces, types
    and alpha channels that the constructor gave them, in the order
    position, trajectory, linear_v, angular_v, filtered_armors,
    aimming_line. *)
Theorem marker_styles_are_constant
    (calls : list (Time * Target.t * GimbalCmd.t)) fr now t g :
  let array := snd (publish (publish_calls constructor_markers fr calls) fr now t g) in
  map Marker.ns array
  = ["position"; "trajectory"; "linear_v"; "angular_v"; "filtered_armors";
     "aimming_line"]%string
  /\ map Marker.type array
     = [Marker.SPHERE; Marker.POINTS; Marker.ARROW; Marker.ARROW;
        Marker.SPHERE_LIST; Marker.ARROW]
  /\ map (fun m => Marker.a (Marker.color m)) array = [1; 1; 1; 1; 1; 0.5].
Proof.
  cbv zeta.
  assert (Hinv : forall ms,
             map Marker.ns (marker_array ms)
             = map Marker.ns (marker_array constructor_markers)
             /\ map Marker.type (marker_array ms)
                = map Marker.type (marker_array constructor_markers)
             /\ map (fun m => Marker.a (Marker.color m)) (marker_array ms)
                = map (fun m => Marker.a (Marker.color m))
                      (marker_array constructor_markers) ->
             let ms' := publish_calls ms fr calls in
             map Marker.ns (marker_array ms')
             = map Marker.ns (marker_array constructor_markers)
             /\ map Marker.type (marker_array ms')
                = map Marker.type (marker_array constructor_markers)
             /\ map (fun m => Marker.a (Marker.color m)) (marker_array ms')
                = map (fun m => Marker.a (Marker.color m))
                      (marker_array constructor_markers)).
  { induction calls as [| [[now' t'] g'] rest IH]; intros ms H; [exact H |].
    apply (IH (fst (publish ms fr now' t' g'))).
    destruct (publish_keeps_styles ms fr now' t' g') as (Hn & Ht & _ & Ha).
    destruct H as (Hn0 & Ht0 & Ha0).
    rewrite Hn, Ht, Ha. repeat split; assumption. }
  destruct (Hinv constructor_markers (conj eq_refl (conj eq_refl eq_refl)))
    as (Hn & Ht & Ha).
  destruct (publish_keeps_styles (publish_calls constructor_markers fr calls)
              fr now t g) as (Hn' & Ht' & _ & Ha').
  change (snd (publish (publish_calls constructor_markers fr calls) fr now t g))
    with (marker_array
            (fst (publish (publish_calls constructor_markers fr calls) fr now t g))).
  rewrite Hn', Ht', Ha', Hn, Ht, Ha. repeat split.
Qed.

(** For a snapshot with tracking = false every marker is published with
    the action DELETE, and none of the stored points, poses and colours is
    touched: the geometry of the last tracked target stays in the markers. *)
Theorem untracked_markers_are_deleted ms fr now t g :
  Target.tracking t = false ->
  Forall (fun m => Marker.action m = Marker.DELETE) (snd (publish ms fr now t g))
  /\ map Marker.points (snd (publish ms fr now t g))
     = map Marker.points (marker_array ms)
  /\ map Marker.pose (snd (publish ms fr now t g)) = map Marker.pose (marker_array ms)
  /\ map Marker.color (snd (publish ms fr now t g))
     = map Marker.color (marker_array ms).
Proof.
  intro H. unfold publishMarkers. rewrite H. cbn.
  split; [repeat constructor | repeat split].
Qed.

(** For a snapshot with tracking = true every marker is published with the
    action ADD; the armors marker holds one point per armor, armors_num
    being read as a size_t; the two velocity arrows and the aiming line
    hold two points each, and the trajectory marker one point per point
    of the solver's trajectory. *)
Theorem tracked_marker_point_counts ms fr now t g :
  Target.tracking t = true ->
  Forall (fun m => Marker.action m = Marker.ADD) (snd (publish ms fr now t g))
  /\ map (fun m => List.length (Marker.points m)) (snd (publish ms fr now t g))
     = [ List.length (Marker.points (position_marker_ ms));
         List.length (getTrajectory (GimbalCmd.distance g)
                                    (GimbalCmd.pitch g * M_PI / 180));
         2%nat; 2%nat;
         Z.to_nat (Target.armors_num t mod 2 ^ 64);
         2%nat ].
Proof.
  intro H. unfold publishMarkers. rewrite H.
  destruct (GimbalCmd.fire_advice g); cbn;
    (split; [repeat constructor |]);
    unfold trajectory_points; rewrite length_map, draw_armors_length;
    reflexivity.
Qed.

(** For a tracked target with four armors the armors marker holds four
    points a quarter turn apart, drawn with radius_1 and radius_2 in
    alternation starting with radius_1, at heights za and za + dz in
    alternation starting with za. *)
Theorem four_armors_alternate ms fr now t g :
  Target.tracking t = true ->
  Target.armors_num t = 4%Z ->
  let yaw := Target.yaw t in
  let xc := Point.x (Target.position t) in
  let yc := Point.y (Target.position t) in
  let za := Point.z (Target.position t) in
  let r1 := Target.radius_1 t in
  let r2 := Target.radius_2 t in
  let quarter := 2 * M_PI / 4 in
  Marker.points (armors_marker_ (fst (publish ms fr now t g)))
  = [ {| Point.x := xc - r1 * libm_cos (yaw + 0 * quarter);
         Point.y := yc - r1 * libm_sin (yaw + 0 * quarter);
         Point.z := za + 0 |};
      {| Point.x := xc - r2 * libm_cos (yaw + 1 * quarter);
         Point.y := yc - r2 * libm_sin (yaw + 1 * quarter);
         Point.z := za + Target.dz t |};
      {| Point.x := xc - r1 * libm_cos (yaw + 2 * quarter);
         Point.y := yc - r1 * libm_sin (yaw + 2 * quarter);
         Point.z := za + 0 |};
      {| Point.x := xc - r2 * libm_cos (yaw + 3 * quarter);
         Point.y := yc - r2 * libm_sin (yaw + 3 * quarter);
         Point.z := za + Target.dz t |} ].
Proof.
  intros Htr Hn. cbv zeta. unfold publishMarkers. rewrite Htr, Hn.
  destruct (GimbalCmd.fire_advice g); reflexivity.
Qed.

Lemma draw_armors_single_radius todo i flag a_n yaw r1 r2 xc yc za dz :
  a_n <> 4%Z ->
  Forall (fun p => Point.z p = za
                   /\ exists angle, Point.x p = xc - r1 * libm_cos angle
                                    /\ Point.y p = yc - r1 * libm_sin angle)
         (draw_armors libm_cos libm_sin todo i flag a_n yaw r1 r2 xc yc za dz).
Proof.
  intro Hne. apply Z.eqb_neq in Hne.
  revert i flag. induction todo as [| todo IH]; intros i flag; cbn;
    [constructor |].
  rewrite Hne. constructor; [| apply IH].
  split; [reflexivity |]. eexists. split; reflexivity.
Qed.

(** For a tracked target whose number of armors is not four, every point
    of the armors marker is at height za on the circle of radius_1:
    radius_2 and dz are not used. *)
Theorem other_armor_counts_use_one_radius ms fr now t g :
  Target.tracking t = true ->
  (Target.armors_num t mod 2 ^ 64)%Z <> 4%Z ->
  Forall (fun p =>
            Point.z p = Point.z (Target.position t)
            /\ exists angle,
                 Point.x p = Point.x (Target.position t)
                             - Target.radius_1 t * libm_cos angle
                 /\ Point.y p = Point.y (Target.position t)
                                - Target.radius_1 t * libm_sin angle)
         (Marker.points (armors_marker_ (fst (publish ms fr now t g)))).
Proof.
  intros Htr Hn. unfold publishMarkers. rewrite Htr.
  destruct (GimbalCmd.fire_advice g); cbn;
    apply draw_armors_single_radius; exact Hn.
Qed.

(** For a tracked target the aiming line is green when the command advises
    to fire and white otherwise; its alpha channel is not written. *)
Theorem aiming_line_colour ms fr now t g :
  Target.tracking t = true ->
  Marker.color (aimming_line_marker_ (fst (publish ms fr now t g)))
  = if GimbalCmd.fire_advice g
    then {| Marker.r := 0; Marker.g := 1; Marker.b := 0;
            Marker.a := Marker.a (Marker.color (aimming_line_marker_ ms)) |}
    else {| Marker.r := 1; Marker.g := 1; Marker.b := 1;
            Marker.a := Marker.a (Marker.color (aimming_line_marker_ ms)) |}.
Proof.
  intro Htr. unfold publishMarkers. rewrite Htr.
  destruct (GimbalCmd.fire_advice g); reflexivity.
Qed.

(** The headers of the published markers: position, linear_v, angular_v
    and armors carry the header of the target message; the aiming line
    carries its stamp with the frame target_frame_ + "_rectify"; the
    trajectory marker is stamped with the clock in the frame gimbal_link
    for a tracked target, and otherwise keeps the header it had. *)
Theorem marker_headers ms fr now t g :
  map Marker.header (snd (publish ms fr now t g))
  = [ Target.header t;
      (if Target.tracking t
       then {| Header.stamp := now; Header.frame_id := "gimbal_link" |}
       else Marker.header (trajectory_marker_ ms));
      Target.header t;
      Target.header t;
      Target.header t;
      {| Header.stamp := Header.stamp (Target.header t);
         Header.frame_id := (fr ++ "_rectify")%string |} ].
Proof.
  unfold publishMarkers.
  destruct (Target.tracking t); [destruct (GimbalCmd.fire_advice g) |];
    reflexivity.
Qed.

(** As long as no target has been tracked, the trajectory marker is
    published with the header the constructor left in it, whose frame id
    is empty, with the action DELETE and without points. *)
Theorem trajectory_marker_before_first_track
    (calls : list (Time * Target.t * GimbalCmd.t)) fr now t g :
  Forall (fun c => Target.tracking (snd (fst c)) = false) calls ->
  Target.tracking t = false ->
  let m := trajectory_marker_
             (fst (publish (publish_calls constructor_markers fr calls) fr now t g)) in
  Marker.header m = Header.default
  /\ Marker.action m = Marker.DELETE
  /\ Marker.points m = [].
Proof.
  intros Hcalls Htr. cbv zeta.
  assert (Hinv : forall ms,
             Marker.header (trajectory_marker_ ms) = Header.default
             /\ Marker.points (trajectory_marker_ ms) = [] ->
             Marker.header (trajectory_marker_ (publish_calls ms fr calls))
             = Header.default
             /\ Marker.points (trajectory_marker_ (publish_calls ms fr calls)) = []).
  { induction Hcalls as [| [[now' t'] g'] rest Hc _ IH]; intros ms H; [exact H |].
    apply (IH (fst (publish ms fr now' t' g'))).
    cbn in Hc. unfold publishMarkers. rewrite Hc. exact H. }
  destruct (Hinv constructor_markers (conj eq_refl eq_refl)) as (Hh & Hp).
  unfold publishMarkers. rewrite Htr. cbn.
  split; [exact Hh |]. split; [reflexivity | exact Hp].
Qed.
End Marker_facts.

Section Marker_witnesses.
Import DemoMarkers.
Local Open Scope float_scope.

Lemma untracked_markers_are_deleted_witness :
  Target.tracking untracked = false
  /\ Forall (fun m => Marker.action m = Marker.DELETE)
            (snd (publish (fst (publish constructor_markers "odom" 5%Z tracked fire))
                          "odom" 6%Z untracked fire))
  /\ map Marker.points
         (snd (publish (fst (publish constructor_markers "odom" 5%Z tracked fire))
                       "odom" 6%Z untracked fire))
     = map Marker.points
           (marker_array (fst (publish constructor_markers "odom" 5%Z tracked fire))).
Proof.
  split; [reflexivity |].
  destruct (untracked_markers_are_deleted cos0 sin0 trajectory
              (fst (publish constructor_markers "odom" 5%Z tracked fire))
              "odom" 6%Z untracked fire eq_refl) as (Ha & Hp & _).
  split; [exact Ha | exact Hp].
Defined.

Lemma tracked_marker_point_counts_witness :
  Target.tracking tracked = true
  /\ map (fun m => List.length (Marker.points m))
         (snd (publish constructor_markers "odom" 5%Z tracked fire))
     = [0; 2; 2; 2; 4; 2]%nat.
Proof.
  split; [reflexivity |].
  destruct (tracked_marker_point_counts cos0 sin0 trajectory constructor_markers
              "odom" 5%Z tracked fire eq_refl) as (_ & H).
  unfold publish. rewrite H. reflexivity.
Defined.

Lemma four_armors_alternate_witness :
  Target.tracking tracked = true
  /\ Target.armors_num tracked = 4%Z
  /\ map Point.z
         (Marker.points
            (armors_marker_ (fst (publish constructor_markers "odom" 5%Z tracked fire))))
     = [0.1 + 0; 0.1 + 0.05; 0.1 + 0; 0.1 + 0.05].
Proof.
  split; [reflexivity |]. split; [reflexivity |].
  unfold publish.
  rewrite (four_armors_alternate cos0 sin0 trajectory constructor_markers
             "odom" 5%Z tracked fire eq_refl eq_refl).
  reflexivity.
Defined.

(** A tracked outpost, with three armors. *)
Local Abbreviation outpost :=
  {| Target.header := Target.header tracked;
     Target.tracking := true;
     Target.id := "outpost";
     Target.armors_num := 3%Z;
     Target.position := Target.position tracked;
     Target.velocity := Target.velocity tracked;
     Target.yaw := 0;
     Target.v_yaw := 1;
     Target.radius_1 := 0.25;
     Target.radius_2 := 0.27;
     Target.dz := 0.05 |}.

Lemma other_armor_counts_use_one_radius_witness :
  Target.tracking outpost = true
  /\ (Target.armors_num outpost mod 2 ^ 64)%Z <> 4%Z
  /\ Forall (fun p => Point.z p = 0.1)
            (Marker.points
               (armors_marker_ (fst (publish constructor_markers "odom" 5%Z outpost fire)))).
Proof.
  split; [reflexivity |]. split; [discriminate |].
  assert (H := other_armor_counts_use_one_radius cos0 sin0 trajectory
                 constructor_markers "odom" 5%Z outpost fire eq_refl
                 (fun E : (Target.armors_num outpost mod 2 ^ 64)%Z = 4%Z =>
                    proj1 (Z.eqb_neq 3 4) eq_refl E)).
  apply (Forall_impl _ (fun p Hp => proj1 Hp) H).
Defined.

Lemma aiming_line_colour_witness :
  Target.tracking tracked = true
  /\ Marker.color
       (aimming_line_marker_ (fst (publish constructor_markers "odom" 5%Z tracked fire)))
     = {| Marker.r := 0; Marker.g := 1; Marker.b := 0; Marker.a := 0.5 |}.
Proof.
  split; [reflexivity |].
  unfold publish.
  rewrite (aiming_line_colour cos0 sin0 trajectory constructor_markers
             "odom" 5%Z tracked fire eq_refl).
  reflexivity.
Defined.

Lemma trajectory_marker_before_first_track_witness :
  Forall (fun c => Target.tracking (snd (fst c)) = false)
         [(5%Z, untracked, fire); (6%Z, untracked, fire)]
  /\ Target.tracking untracked = false
  /\ Header.frame_id
       (Marker.header
          (trajectory_marker_
             (fst (publish
                     (publish_all cos0 sin0 trajectory constructor_markers "odom"
                        [(5%Z, untracked, fire); (6%Z, untracked, fire)])
                     "odom" 7%Z untracked fire))))
     = EmptyString.
Proof.
  assert (H : Forall (fun c => Target.tracking (snd (fst c)) = false)
                     [(5%Z, untracked, fire); (6%Z, untracked, fire)])
    by (repeat constructor).
  split; [exact H |]. split; [reflexivity |].
  destruct (trajectory_marker_before_first_track cos0 sin0 trajectory
              "odom" 7%Z untracked fire H eq_refl) as (Hh & _).
  unfold publish. rewrite Hh. reflexivity.
Defined.
End Marker_witnesses.
